(** * retrain_distillbert.py: the fine-tuning script of
      examples/natural_language/transformers

    The script is linear glue over TensorFlow, tensorflow_datasets,
    transformers and absl.  It is embedded here as a finite tree of library
    calls ([script]) that is run against an arbitrary [world] answering every
    call with a value or an exception; the only computation the script does
    on its own, the slicing of the pretrained weights, is embedded as pure
    functions on nested arrays. *)

From Stdlib Require Import List ZArith QArith Bool String Ascii Lia.
Import ListNotations.
Local Open Scope string_scope.
Local Open Scope Z_scope.

Set Implicit Arguments.
Local Set Warnings "-register-all".

(** ** Tensors and basic slicing *)

Module Tensor.

Section Arrays.
Context {A : Type}.

(** The values of a tensor, as the nested sequence [numpy()] shows. *)
Inductive ndarray : Type :=
| Scalar (x : A)
| Array (xs : list ndarray).

(** [well_shaped sh a]: the array has the static shape [sh]. *)
Fixpoint well_shaped (sh : list Z) (a : ndarray) {struct sh} : bool :=
  match sh, a with
  | [], Scalar _ => true
  | n :: sh', Array xs =>
      (Z.of_nat (List.length xs) =? n) && forallb (well_shaped sh') xs
  | _, _ => false
  end.

(** Element at a multi-index. *)
Fixpoint lookup (ix : list nat) (a : ndarray) {struct ix} : option A :=
  match ix, a with
  | [], Scalar x => Some x
  | i :: ix', Array xs =>
      match nth_error xs i with
      | Some a' => lookup ix' a'
      | None => None
      end
  | _, _ => None
  end.

(** A Python [slice(start, stop)] object with the default step. *)
Inductive pyslice : Type := slice (start stop : option Z).

(** [slice.indices(n)] for step 1: negative bounds count from the end and
    both bounds are clamped to [0, n]. *)
Definition clamp (n : Z) (default : Z) (b : option Z) : Z :=
  match b with
  | None => default
  | Some v => if v <? 0 then Z.max 0 (n + v) else Z.min v n
  end.

Definition slice_start (sl : pyslice) (n : Z) : Z :=
  match sl with slice start _ => clamp n 0 start end.

Definition slice_stop (sl : pyslice) (n : Z) : Z :=
  match sl with slice _ stop => clamp n n stop end.

Definition slice_len (sl : pyslice) (n : Z) : Z :=
  Z.max 0 (slice_stop sl n - slice_start sl n).

Definition slice_list {B} (sl : pyslice) (xs : list B) : list B :=
  let n := Z.of_nat (List.length xs) in
  firstn (Z.to_nat (slice_len sl n)) (skipn (Z.to_nat (slice_start sl n)) xs).

(** [a[idx]] for a tuple of slices, one per leading dimension. *)
Fixpoint getitem (idx : list pyslice) (a : ndarray) {struct idx} : ndarray :=
  match idx, a with
  | sl :: idx', Array xs => Array (map (getitem idx') (slice_list sl xs))
  | _, _ => a
  end.

Fixpoint slice_shape (idx : list pyslice) (sh : list Z) : list Z :=
  match idx, sh with
  | sl :: idx', n :: sh' => slice_len sl n :: slice_shape idx' sh'
  | _, _ => sh
  end.

(** A tensor: its static shape ([get_shape().as_list()]) and its values. *)
Record tensor : Type := { get_shape : list Z; values : ndarray }.

(** A tensor's values have its static shape, whose sizes are not negative. *)
Definition tensor_ok (t : tensor) : bool :=
  forallb (Z.leb 0) (get_shape t) && well_shaped (get_shape t) (values t).

Definition tensor_getitem (t : tensor) (idx : list pyslice) : tensor :=
  {| get_shape := slice_shape idx (get_shape t);
     values := getitem idx (values t) |}.

(** Crop every listed leading dimension to at most [k] entries when
    [Some k], whole when [None]; used to phrase the slicing the way the
    specification words it. *)
Fixpoint crop (ks : list (option nat)) (a : ndarray) {struct ks} : ndarray :=
  match ks, a with
  | k :: ks', Array xs =>
      Array (map (crop ks')
               (match k with Some n => firstn n xs | None => xs end))
  | _, _ => a
  end.

End Arrays.

Arguments ndarray : clear implicits.
Arguments tensor : clear implicits.

End Tensor.

Import Tensor.

(** ** Values the script handles *)

(** Weights hold float32 numbers; the script only copies them. *)
Definition float := Q.

(** Library objects the script receives and passes on without looking
    inside: a kind and an identity. *)
Inductive kind : Type :=
| Tokenizer | Dataset | Config | Predictions | Optimizer | Loss | Metric
| History.

Record object (k : kind) : Type := Obj { obj_id : nat }.

(** A Keras model: its identity and, per layer, the weights that
    [layers[n].weights] lists. *)
Record layer : Type := { weights : list (tensor float) }.
Record keras_model : Type := { model_id : nat; layers : list layer }.

(** [tensorflow_datasets.load(..., with_info=True)]: the splits by name, and
    the info object with [splits[name].num_examples].  The script reads
    both by subscript.  The info's [splits] is a mapping of the library's
    own; it is kept here as the association list a dictionary is, so a name
    it lacks is reported as a dictionary reports it, by [KeyError]; the
    library is free to report it otherwise. *)
Record split_info : Type := { num_examples : Z }.
Record dataset_info : Type := { splits : list (string * split_info) }.
Definition dataset_dict : Type := list (string * object Dataset).

Inductive pyvalue : Type :=
| VNone
| VBool (b : bool)
| VInt (z : Z)
| VFloat (q : Q)
| VStr (s : string)
| VStrList (l : list string)
| VObject (k : kind) (o : object k)
| VDict (d : dataset_dict)
| VInfo (i : dataset_info)
| VModel (m : keras_model)
| VTensor (t : tensor float)
| VTensorList (l : list (tensor float))
| VSlices (l : list pyslice).

(** A printed line: literal text and the values of replacement fields, whose
    [str()] is the library's. *)
Inductive segment : Type :=
| Text (s : string)
| Format (v : pyvalue).

Inductive exn : Type :=
| KeyError (key : string)
| IndexError
| TypeError
| ZeroDivisionError
| LibraryError (what : string).

(** ** Command-line flags (lines 15-27) *)

Inductive flag_value : Type :=
| FInt (z : Z)
| FFloat (q : Q)
| FBool (b : bool)
| FString (s : string).

Record flag_def : Type :=
  { flag_name : string; flag_default : flag_value; flag_help : string }.

Definition flag_definitions : list flag_def :=
  [ {| flag_name := "batch_size"; flag_default := FInt 32;
       flag_help := "Batch size for training" |};
    {| flag_name := "learning_rate"; flag_default := FFloat (3 # 100000);
       flag_help := "Learning rate for training" |};
    {| flag_name := "epsilon"; flag_default := FFloat (1 # 100000000);
       flag_help := "Epsilon to use for ADAM optimization" |};
    {| flag_name := "max_length"; flag_default := FInt 128;
       flag_help := "The maximum length of any sequence" |};
    {| flag_name := "buffer_size"; flag_default := FInt 128;
       flag_help := "Buffer size for dataset shuffling" |};
    {| flag_name := "use_xla"; flag_default := FBool false;
       flag_help := "Whether or not to use XLA acceleration" |};
    {| flag_name := "use_amp"; flag_default := FBool false;
       flag_help := "Whether or not to use Auto Mixed Precision" |};
    {| flag_name := "epochs"; flag_default := FInt 3;
       flag_help := "Number of epochs to train for" |};
    {| flag_name := "task"; flag_default := FString "sst-2";
       flag_help := "Which task to re-train on" |};
    {| flag_name := "force_train"; flag_default := FBool false;
       flag_help := "Set to True to overwrite an existing model" |};
    {| flag_name := "evaluate"; flag_default := FBool false;
       flag_help := "Set to True to evaluate the model instead of training" |} ].

(** The parsed [FLAGS] object. *)
Record flags : Type :=
  { batch_size : Z;
    learning_rate : Q;
    epsilon : Q;
    max_length : Z;
    buffer_size : Z;
    use_xla : bool;
    use_amp : bool;
    epochs : Z;
    task : string;
    force_train : bool;
    evaluate : bool }.

(** [FLAGS.<name>] for every defined flag, in definition order. *)
Definition flag_values (FLAGS : flags) : list (string * flag_value) :=
  [ ("batch_size", FInt (batch_size FLAGS));
    ("learning_rate", FFloat (learning_rate FLAGS));
    ("epsilon", FFloat (epsilon FLAGS));
    ("max_length", FInt (max_length FLAGS));
    ("buffer_size", FInt (buffer_size FLAGS));
    ("use_xla", FBool (use_xla FLAGS));
    ("use_amp", FBool (use_amp FLAGS));
    ("epochs", FInt (epochs FLAGS));
    ("task", FString (task FLAGS));
    ("force_train", FBool (force_train FLAGS));
    ("evaluate", FBool (evaluate FLAGS)) ].

(** The flags when the command line sets none. *)
Definition default_flags : flags :=
  {| batch_size := 32; learning_rate := 3 # 100000;
     epsilon := 1 # 100000000; max_length := 128; buffer_size := 128;
     use_xla := false; use_amp := false; epochs := 3; task := "sst-2";
     force_train := false; evaluate := false |}.

Definition value_of_flag (v : flag_value) : pyvalue :=
  match v with
  | FInt z => VInt z
  | FFloat q => VFloat q
  | FBool b => VBool b
  | FString s => VStr s
  end.

(** ** Library calls *)

Inductive call : Type :=
(* path_explain.utils, tf.config *)
| set_up_environment
| set_jit (enabled : bool)
| set_experimental_options (options : list (string * bool))
(* transformers, tensorflow_datasets *)
| glue_get_labels (task : string)
| tokenizer_from_pretrained (name : string)
| tfds_load (name : string) (with_info : bool)
| glue_convert_examples_to_features
    (examples : object Dataset) (tokenizer : object Tokenizer)
    (max_length : Z) (task : string)
(* tf.data *)
| ds_shuffle (d : object Dataset) (buffer_size : Z)
| ds_batch (d : object Dataset) (batch_size : Z)
| ds_repeat (d : object Dataset) (count : Z)
(* models *)
| config_from_pretrained (name : string) (num_labels : Z) (dim : option Z)
| model_from_pretrained (name : string) (config : object Config)
| model_new (config : object Config)
| model_predict (m : keras_model) (d : object Dataset)
| layer_set_weights (m : keras_model) (n : nat) (ws : list (tensor float))
(* tf.keras *)
| Adam (learning_rate epsilon : Q)
| LossScaleOptimizer (opt : object Optimizer) (loss_scale : string)
| MeanSquaredError
| SparseCategoricalCrossentropy (from_logits : bool)
| SparseCategoricalAccuracy (name : string)
| model_compile (m : keras_model) (optimizer : object Optimizer)
    (loss : object Loss) (metrics : list (object Metric))
| model_summary (m : keras_model)
| model_evaluate (m : keras_model) (d : object Dataset) (verbose : Z)
    (steps : option Z)
| model_fit (m : keras_model) (d : object Dataset)
    (epochs steps_per_epoch : Z) (validation_data : object Dataset)
    (validation_steps : Z)
| save_pretrained (m : keras_model) (path : string)
(* builtins, os *)
| print (line : list segment)
| path_exists (path : string)
| makedirs (path : string) (exist_ok : bool).

(** What each call hands back. *)
Definition ret (c : call) : Type :=
  match c with
  | glue_get_labels _ => list (option string)
  | tokenizer_from_pretrained _ => object Tokenizer
  | tfds_load _ _ => (dataset_dict * dataset_info)%type
  | glue_convert_examples_to_features _ _ _ _ => object Dataset
  | ds_shuffle _ _ | ds_batch _ _ | ds_repeat _ _ => object Dataset
  | config_from_pretrained _ _ _ => object Config
  | model_from_pretrained _ _ | model_new _ => keras_model
  | model_predict _ _ => object Predictions
  | Adam _ _ | LossScaleOptimizer _ _ => object Optimizer
  | MeanSquaredError | SparseCategoricalCrossentropy _ => object Loss
  | SparseCategoricalAccuracy _ => object Metric
  | model_fit _ _ _ _ _ _ => object History
  | path_exists _ => bool
  | _ => unit
  end.

(** ** Scripts: finite trees of calls *)

Inductive outcome (X : Type) : Type :=
| Ok (x : X)
| Exn (e : exn).
Arguments Exn {X} e.

Inductive script (R : Type) : Type :=
| Return (r : R)
| Raise (e : exn)
| Do (c : call) (k : ret c -> script R).
Arguments Raise {R} e.

Fixpoint bind {A B} (p : script A) (f : A -> script B) : script B :=
  match p with
  | Return a => f a
  | Raise e => Raise e
  | Do c k => Do c (fun x => bind (k x) f)
  end.

Declare Scope script_scope.
Delimit Scope script_scope with script.
Notation "x <- c ;; k" := (Do c (fun x => k))
  (at level 61, c at next level, right associativity) : script_scope.
Notation "x <~ p ;; k" := (bind p (fun x => k))
  (at level 61, p at next level, right associativity) : script_scope.
Local Open Scope script_scope.

(** A call together with what came back. *)
Record event : Type := Ev { ev_call : call; ev_out : outcome (ret ev_call) }.

(** The world outside the script answers each call, knowing every earlier
    call and answer (latest first). *)
Definition world : Type := list event -> forall c : call, outcome (ret c).

(** Running a script: nothing in it catches an exception, so the first one
    ends the run. *)
Fixpoint trace {R} (w : world) (past : list event) (p : script R)
  : list event :=
  match p with
  | Return _ | Raise _ => []
  | Do c k =>
      match w past c with
      | Ok x => Ev c (Ok x) :: trace w (Ev c (Ok x) :: past) (k x)
      | Exn e => [Ev c (Exn e)]
      end
  end.

Fixpoint result {R} (w : world) (past : list event) (p : script R)
  : outcome R :=
  match p with
  | Return r => Ok r
  | Raise e => Exn e
  | Do c k =>
      match w past c with
      | Ok x => result w (Ev c (Ok x) :: past) (k x)
      | Exn e => Exn e
      end
  end.

Definition calls (t : list event) : list call := map ev_call t.

(** ** Python operations the script uses on its own *)

Fixpoint dict_get {V} (key : string) (d : list (string * V)) : option V :=
  match d with
  | [] => None
  | (k, v) :: d' => if String.eqb k key then Some v else dict_get key d'
  end.

(** [d[key]] on a dict. *)
Definition subscript {V} (d : list (string * V)) (key : string) : script V :=
  match dict_get key d with
  | Some v => Return v
  | None => Raise (KeyError key)
  end.

(** [l[n]] on a list, for a non-negative [n]. *)
Definition item {V} (l : list V) (n : nat) : script V :=
  match nth_error l n with
  | Some v => Return v
  | None => Raise IndexError
  end.

Definition len {V} (l : list V) : Z := Z.of_nat (List.length l).

Definition range (n : Z) : list Z := map Z.of_nat (seq 0 (Z.to_nat n)).

(** [x // y] on ints. *)
Definition floordiv (x y : Z) : script Z :=
  if y =? 0 then Raise ZeroDivisionError else Return (x / y).

(** [int(x / y)] for an int or [None] over an int: true division, then
    truncation.  The quotient of two ints is the correctly rounded double;
    for the lengths this script divides (below 2^17) no rounding reaches
    the next integer, so the truncation is that of the exact quotient. *)
Definition int_truediv (x : option Z) (y : Z) : script Z :=
  match x with
  | None => Raise TypeError
  | Some a => if y =? 0 then Raise ZeroDivisionError else Return (Z.quot a y)
  end.

(** [for x in xs: body], threading the variables the body assigns. *)
Fixpoint for_each {A S} (xs : list A) (body : S -> A -> script S) (st : S)
  : script S :=
  match xs with
  | [] => Return st
  | x :: xs' => st' <~ body st x ;; for_each xs' body st'
  end.

(** ** The script *)

(** Lines 29-35. *)
Definition _set_config (FLAGS : flags) : script unit :=
  _ <- set_up_environment ;;
  _ <- set_jit (use_xla FLAGS) ;;
  _ <- set_experimental_options [("auto_mixed_precision", use_amp FLAGS)] ;;
  Return tt.

(** Lines 37-48. *)
Definition _get_tfds_task (task : string) : string :=
  if String.eqb task "sst-2" then "sst2"
  else if String.eqb task "sts-b" then "stsb"
  else task.

(** Lines 50-54: falling off the end returns [None]. *)
Definition _get_train_length (task : string) : option Z :=
  if String.eqb task "sst-2" then Some 67349
  else if String.eqb task "sts-b" then Some 5749
  else None.

(** The variables the weight loop of lines 93-105 assigns; the ones assigned
    in the body stay unbound when the loop runs no iteration. *)
Module Loop.
Record vars : Type :=
  { weight_list : list (tensor float);
    i : option Z;
    large_weight : option (tensor float);
    slice_indices : option (list pyslice);
    s : option Z;
    sliced_large_weight : option (tensor float) }.

Definition init : vars :=
  {| weight_list := []; i := None; large_weight := None;
     slice_indices := None; s := None; sliced_large_weight := None |}.
End Loop.

(** Lines 97-102: one slice per dimension of the shape. *)
Definition slice_step (acc : list pyslice * option Z) (s : Z)
  : list pyslice * option Z :=
  if s =? 768
  then (fst acc ++ [slice (Some 0) (Some 144)], Some s)%list
  else (fst acc ++ [slice None None], Some s)%list.

(** Lines 96-105: the body of the loop over [i]. *)
Definition slice_body (large_model : keras_model) (v : Loop.vars) (i : Z)
  : script Loop.vars :=
  layer0 <~ item (layers large_model) 0 ;;
  large_weight <~ item (weights layer0) (Z.to_nat i) ;;
  let r := fold_left slice_step (get_shape large_weight) ([], Loop.s v) in
  let slice_indices := fst r in
  let sliced_large_weight := tensor_getitem large_weight slice_indices in
  Return {| Loop.weight_list :=
              (Loop.weight_list v ++ [sliced_large_weight])%list;
            Loop.i := Some i;
            Loop.large_weight := Some large_weight;
            Loop.slice_indices := Some slice_indices;
            Loop.s := snd r;
            Loop.sliced_large_weight := Some sliced_large_weight |}.

(** Lines 93-105. *)
Definition slice_weights (large_model : keras_model) : script Loop.vars :=
  layer0 <~ item (layers large_model) 0 ;;
  for_each (range (len (weights layer0))) (slice_body large_model) Loop.init.

Definition tab : string := String (ascii_of_nat 9) EmptyString.

(** [locals()]: the bound local variables, in the order of the code
    object's variable names. *)
Fixpoint bound (vs : list (string * option pyvalue))
  : list (string * pyvalue) :=
  match vs with
  | [] => []
  | (name, Some v) :: vs' => (name, v) :: bound vs'
  | (_, None) :: vs' => bound vs'
  end.

(** Lines 139-141. *)
Definition print_vars (local_vars : list (string * pyvalue)) : script unit :=
  for_each local_vars
    (fun _ entry =>
       let variable := fst entry in
       if negb (String.prefix "-" variable)
       then _ <- print [Text (variable ++ ":" ++ tab); Format (snd entry)] ;;
            Return tt
       else Return tt)
    tt.

(** Lines 56-154. *)
Definition train (FLAGS : flags) (argv : option (list string))
  : script unit :=
  _ <~ _set_config FLAGS ;;
  labels <- glue_get_labels (task FLAGS) ;;
  let num_labels := len labels in
  tokenizer <- tokenizer_from_pretrained "distilbert-base-uncased" ;;
  loaded <- tfds_load ("glue/" ++ _get_tfds_task (task FLAGS)) true ;;
  let data := fst loaded in
  let info := snd loaded in
  train_split <~ subscript (splits info) "train" ;;
  let train_examples := num_examples train_split in
  valid_split <~ subscript (splits info) "validation" ;;
  let valid_examples := num_examples valid_split in
  train_data <~ subscript data "train" ;;
  train_dataset <- glue_convert_examples_to_features
                     train_data tokenizer (max_length FLAGS) (task FLAGS) ;;
  valid_data <~ subscript data "validation" ;;
  valid_dataset <- glue_convert_examples_to_features
                     valid_data tokenizer (max_length FLAGS) (task FLAGS) ;;
  train_dataset <- ds_shuffle train_dataset (buffer_size FLAGS) ;;
  train_dataset <- ds_batch train_dataset (batch_size FLAGS) ;;
  train_dataset <- ds_repeat train_dataset (-1) ;;
  valid_dataset <- ds_batch valid_dataset (batch_size FLAGS * 2) ;;
  large_config <- config_from_pretrained
                    "distilbert-base-uncased" num_labels None ;;
  large_model <- model_from_pretrained
                   "distilbert-base-uncased" large_config ;;
  config <- config_from_pretrained
              "distilbert-base-uncased" num_labels (Some 144) ;;
  model <- model_new config ;;
  underscore <- model_predict model valid_dataset ;;
  v <~ slice_weights large_model ;;
  _ <~ item (layers model) 0 ;;
  _ <- layer_set_weights model 0 (Loop.weight_list v) ;;
  opt <- Adam (learning_rate FLAGS) (epsilon FLAGS) ;;
  opt <~ (if use_amp FLAGS
          then opt <- LossScaleOptimizer opt "dynamic" ;; Return opt
          else Return opt) ;;
  loss <~ (if num_labels =? 1
           then loss <- MeanSquaredError ;; Return loss
           else loss <- SparseCategoricalCrossentropy true ;; Return loss) ;;
  metric <- SparseCategoricalAccuracy "accuracy" ;;
  let model_path := "./" ++ _get_tfds_task (task FLAGS) ++ "/" in
  _ <- model_compile model opt loss [metric] ;;
  if evaluate FLAGS then
    _ <- print [Text "Model summary:"] ;;
    _ <- model_summary model ;;
    _ <- print [Format VNone] ;;
    _ <- print [Text "Evaluating on the training dataset..."] ;;
    steps <~ int_truediv (_get_train_length (task FLAGS)) (batch_size FLAGS) ;;
    _ <- model_evaluate model train_dataset 2 (Some steps) ;;
    _ <- print [Text "Evaluating on the validation dataset..."] ;;
    _ <- model_evaluate model valid_dataset 2 None ;;
    Return tt
  else
    found <- path_exists (model_path ++ "tf_model.h5") ;;
    if found && negb (force_train FLAGS) then
      _ <- print [Text ("Model in " ++ model_path
                        ++ " already exists. Skipping training. "
                        ++ "If you would like to force a re-train, "
                        ++ "set the force_train flag.")] ;;
      let local_vars :=
        bound
          [ ("argv", Some (match argv with
                           | Some l => VStrList l
                           | None => VNone
                           end));
            ("num_labels", Some (VInt num_labels));
            ("tokenizer", Some (VObject tokenizer));
            ("data", Some (VDict data));
            ("info", Some (VInfo info));
            ("train_examples", Some (VInt train_examples));
            ("valid_examples", Some (VInt valid_examples));
            ("train_dataset", Some (VObject train_dataset));
            ("valid_dataset", Some (VObject valid_dataset));
            ("large_config", Some (VObject large_config));
            ("large_model", Some (VModel large_model));
            ("config", Some (VObject config));
            ("model", Some (VModel model));
            ("_", Some (VObject underscore));
            ("weight_list", Some (VTensorList (Loop.weight_list v)));
            ("i", option_map VInt (Loop.i v));
            ("large_weight", option_map VTensor (Loop.large_weight v));
            ("slice_indices", option_map VSlices (Loop.slice_indices v));
            ("s", option_map VInt (Loop.s v));
            ("sliced_large_weight",
              option_map VTensor (Loop.sliced_large_weight v));
            ("opt", Some (VObject opt));
            ("loss", Some (VObject loss));
            ("metric", Some (VObject metric));
            ("model_path", Some (VStr model_path)) ] in
      _ <~ print_vars local_vars ;;
      Return tt
    else
      train_steps <~ floordiv train_examples (batch_size FLAGS) ;;
      valid_steps <~ floordiv valid_examples (batch_size FLAGS * 2) ;;
      underscore <- model_fit model train_dataset (epochs FLAGS) train_steps
                      valid_dataset valid_steps ;;
      _ <- makedirs model_path true ;;
      _ <- save_pretrained model model_path ;;
      Return tt.

(** ** A sample world

    Every call succeeds; objects are numbered by the count of earlier calls;
    the files listed in [files] exist.  The pretrained model has one layer
    with weights of shapes [2, 768], [768], [768, 3] and [3]. *)

Definition sample_array (rows cols : nat) : ndarray float :=
  Array (map (fun r =>
                Array (map (fun c => Scalar (Z.of_nat (r * cols + c) # 1))
                         (seq 0 cols)))
           (seq 0 rows)).

Definition sample_vector (n : nat) : ndarray float :=
  Array (map (fun c => Scalar (Z.of_nat c # 7)) (seq 0 n)).

Definition sample_weights : list (tensor float) :=
  [ {| get_shape := [2; 768]; values := sample_array 2 768 |};
    {| get_shape := [768]; values := sample_vector 768 |};
    {| get_shape := [768; 3]; values := sample_array 768 3 |};
    {| get_shape := [3]; values := sample_vector 3 |} ].

Definition sample_labels (task : string) : outcome (list (option string)) :=
  if String.eqb task "sts-b" then Ok [None]
  else if String.eqb task "sst-2" then Ok [Some "0"; Some "1"]
  else if String.eqb task "mrpc" then Ok [Some "0"; Some "1"]
  else Exn (KeyError task).

Definition sample_world (files : list string) : world :=
  fun past c =>
    let n := List.length past in
    match c return outcome (ret c) with
    | set_up_environment => Ok tt
    | set_jit _ => Ok tt
    | set_experimental_options _ => Ok tt
    | glue_get_labels task => sample_labels task
    | tokenizer_from_pretrained _ => Ok (Obj Tokenizer n)
    | tfds_load _ _ =>
        Ok ([("test", Obj Dataset n); ("train", Obj Dataset (n + 1));
             ("validation", Obj Dataset (n + 2))],
            {| splits := [("test", {| num_examples := 1821 |});
                          ("train", {| num_examples := 67349 |});
                          ("validation", {| num_examples := 872 |})] |})
    | glue_convert_examples_to_features _ _ _ _ => Ok (Obj Dataset n)
    | ds_shuffle _ _ => Ok (Obj Dataset n)
    | ds_batch _ _ => Ok (Obj Dataset n)
    | ds_repeat _ _ => Ok (Obj Dataset n)
    | config_from_pretrained _ _ _ => Ok (Obj Config n)
    | model_from_pretrained _ _ =>
        Ok {| model_id := n; layers := [ {| weights := sample_weights |} ] |}
    | model_new _ =>
        Ok {| model_id := n; layers := [ {| weights := [] |} ] |}
    | model_predict _ _ => Ok (Obj Predictions n)
    | layer_set_weights _ _ _ => Ok tt
    | Adam _ _ => Ok (Obj Optimizer n)
    | LossScaleOptimizer _ _ => Ok (Obj Optimizer n)
    | MeanSquaredError => Ok (Obj Loss n)
    | SparseCategoricalCrossentropy _ => Ok (Obj Loss n)
    | SparseCategoricalAccuracy _ => Ok (Obj Metric n)
    | model_compile _ _ _ _ => Ok tt
    | model_summary _ => Ok tt
    | model_evaluate _ _ _ _ => Ok tt
    | model_fit _ _ _ _ _ _ => Ok (Obj History n)
    | save_pretrained _ _ => Ok tt
    | print _ => Ok tt
    | path_exists p => Ok (existsb (String.eqb p) files)
    | makedirs _ _ => Ok tt
    end.

(** ** Notions the properties are stated with *)

Unset Implicit Arguments.

(** The exception an event carries, if its call raised. *)
Definition raised (ev : event) : option exn :=
  match ev_out ev with
  | Ok _ => None
  | Exn e => Some e
  end.

(** The slice lines 99-102 choose for a dimension of size [s]. *)
Definition slice_for (s : Z) : pyslice :=
  if s =? 768 then slice (Some 0) (Some 144) else slice None None.

(** What the loop body makes of one weight. *)
Definition sliced (t : tensor float) : tensor float :=
  tensor_getitem t (map slice_for (get_shape t)).

(** The transplant in the specification's words: every dimension of size
    768 is cut down to its first 144 entries, every other one is whole. *)
Definition first_144_of_768 (t : tensor float) : tensor float :=
  {| get_shape := map (fun n => if n =? 768 then 144 else n) (get_shape t);
     values := crop (map (fun n => if n =? 768 then Some 144%nat else None)
                       (get_shape t))
                 (values t) |}.

(** A multi-index that stays inside the cropped dimensions. *)
Fixpoint within (ks : list (option nat)) (ix : list nat) : Prop :=
  match ks, ix with
  | k :: ks', i :: ix' =>
      match k with
      | Some n => (i < n)%nat
      | None => True
      end /\ within ks' ix'
  | _, _ => True
  end.

Definition is_print (c : call) : bool :=
  match c with
  | print _ => true
  | _ => false
  end.

Definition is_fit (c : call) : bool :=
  match c with
  | model_fit _ _ _ _ _ _ => true
  | _ => false
  end.

Definition is_evaluate (c : call) : bool :=
  match c with
  | model_evaluate _ _ _ _ => true
  | _ => false
  end.

(** Calls that train, or write under the output path. *)
Definition trains_or_saves (c : call) : bool :=
  match c with
  | model_fit _ _ _ _ _ _ | makedirs _ _ | save_pretrained _ _ => true
  | _ => false
  end.

Definition count (f : call -> bool) (t : list event) : nat :=
  List.length (filter f (calls t)).

(** [always w past p Q]: however [w] answers the calls of [p] after the
    history [past] (latest first), [Q] holds of the events of the run, in
    order, and of its result. *)
Fixpoint always {R} (w : world) (past : list event) (p : script R)
    (Q : list event -> outcome R -> Prop) : Prop :=
  match p with
  | Return r => Q [] (Ok r)
  | Raise e => Q [] (Exn e)
  | Do c k =>
      (forall e, w past c = Exn e -> Q [Ev c (Exn e)] (Exn e)) /\
      (forall x, w past c = Ok x ->
                 always w (Ev c (Ok x) :: past) (k x)
                   (fun t r => Q (Ev c (Ok x) :: t) r))
  end.

(** The values of [f] on the events of a run, in order. *)
Fixpoint collect {A} (f : event -> option A) (t : list event) : list A :=
  match t with
  | [] => []
  | ev :: t' =>
      match f ev with
      | Some a => a :: collect f t'
      | None => collect f t'
      end
  end.

(** Calls that succeeded, with the model, configuration, optimizer or
    truth value they returned. *)
Definition model_answer (ev : event) : option (call * keras_model) :=
  match ev with
  | Ev c o =>
      match c as c0 return outcome (ret c0) -> option (call * keras_model) with
      | model_from_pretrained name config =>
          fun o => match o with
                   | Ok m => Some (model_from_pretrained name config, m)
                   | Exn _ => None
                   end
      | model_new config =>
          fun o => match o with
                   | Ok m => Some (model_new config, m)
                   | Exn _ => None
                   end
      | _ => fun _ => None
      end o
  end.

Definition config_answer (ev : event) : option (call * object Config) :=
  match ev with
  | Ev c o =>
      match c as c0
            return outcome (ret c0) -> option (call * object Config) with
      | config_from_pretrained name num_labels dim =>
          fun o => match o with
                   | Ok cfg =>
                       Some (config_from_pretrained name num_labels dim, cfg)
                   | Exn _ => None
                   end
      | _ => fun _ => None
      end o
  end.

Definition optimizer_answer (ev : event)
  : option (call * object Optimizer) :=
  match ev with
  | Ev c o =>
      match c as c0
            return outcome (ret c0) -> option (call * object Optimizer) with
      | Adam lr eps =>
          fun o => match o with
                   | Ok opt => Some (Adam lr eps, opt)
                   | Exn _ => None
                   end
      | LossScaleOptimizer inner scale =>
          fun o => match o with
                   | Ok opt => Some (LossScaleOptimizer inner scale, opt)
                   | Exn _ => None
                   end
      | _ => fun _ => None
      end o
  end.

Definition exists_answer (ev : event) : option (string * bool) :=
  match ev with
  | Ev c o =>
      match c as c0 return outcome (ret c0) -> option (string * bool) with
      | path_exists p =>
          fun o => match o with
                   | Ok b => Some (p, b)
                   | Exn _ => None
                   end
      | _ => fun _ => None
      end o
  end.

Definition print_answer (ev : event) : option (list segment) :=
  match ev with
  | Ev c o =>
      match c as c0 return outcome (ret c0) -> option (list segment) with
      | print line =>
          fun o => match o with
                   | Ok _ => Some line
                   | Exn _ => None
                   end
      | _ => fun _ => None
      end o
  end.

(** Reading the arguments of calls off a run. *)
Definition of_call {A} (g : call -> option A) (ev : event) : option A :=
  g (ev_call ev).

Definition set_weights_args (c : call)
  : option (keras_model * nat * list (tensor float)) :=
  match c with
  | layer_set_weights m n ws => Some (m, n, ws)
  | _ => None
  end.

Definition evaluate_args (c : call)
  : option (keras_model * object Dataset * Z * option Z) :=
  match c with
  | model_evaluate m d verbose steps => Some (m, d, verbose, steps)
  | _ => None
  end.

Definition compile_args (c : call)
  : option (keras_model * object Optimizer * object Loss
            * list (object Metric)) :=
  match c with
  | model_compile m opt loss metrics => Some (m, opt, loss, metrics)
  | _ => None
  end.

Definition fit_args (c : call)
  : option (keras_model * object Dataset * Z * Z * object Dataset * Z) :=
  match c with
  | model_fit m d epochs steps vd vsteps => Some (m, d, epochs, steps, vd, vsteps)
  | _ => None
  end.

Definition save_args (c : call) : option (keras_model * string) :=
  match c with
  | save_pretrained m p => Some (m, p)
  | _ => None
  end.

(** The lines [print_vars] prints, and its runs. *)
Definition var_line (entry : string * pyvalue) : list segment :=
  [Text (fst entry ++ ":" ++ tab); Format (snd entry)].

Definition printed (vars : list (string * pyvalue)) : list (list segment) :=
  map var_line
    (filter (fun entry => negb (String.prefix "-" (fst entry))) vars).

Definition print_run (vars : list (string * pyvalue)) (t : list event)
    (r : outcome unit) : Prop :=
  forallb is_print (calls t) = true /\
  match r with
  | Ok _ => calls t = map print (printed vars)
  | Exn e => exists pre line, t = (pre ++ [Ev (print line) (Exn e)])%list
  end.

(** The output directory of line 122 and the checkpoint file of line 135. *)
Definition model_path (FLAGS : flags) : string :=
  "./" ++ _get_tfds_task (task FLAGS) ++ "/".

Definition checkpoint (FLAGS : flags) : string :=
  model_path FLAGS ++ "tf_model.h5".

(** Names that come from [_get_tfds_task]. *)
Definition names_from_tfds_task (FLAGS : flags) (c : call) : Prop :=
  match c with
  | tfds_load name _ => name = "glue/" ++ _get_tfds_task (task FLAGS)
  | path_exists p => p = checkpoint FLAGS
  | makedirs p _ | save_pretrained _ p => p = model_path FLAGS
  | _ => True
  end.

(** Calls that touch the output path: training, the existence test, making
    the directory, saving. *)
Definition touches_output (c : call) : bool :=
  match c with
  | model_fit _ _ _ _ _ _ | makedirs _ _ | save_pretrained _ _
  | path_exists _ => true
  | _ => false
  end.

Definition ends_with {A} (suffix l : list A) : Prop :=
  exists pre, l = (pre ++ suffix)%list.

(** Flags with evaluate set, and flags with another task. *)
Definition with_evaluate (FLAGS : flags) : flags :=
  {| batch_size := batch_size FLAGS; learning_rate := learning_rate FLAGS;
     epsilon := epsilon FLAGS; max_length := max_length FLAGS;
     buffer_size := buffer_size FLAGS; use_xla := use_xla FLAGS;
     use_amp := use_amp FLAGS; epochs := epochs FLAGS; task := task FLAGS;
     force_train := force_train FLAGS; evaluate := true |}.

Definition with_task (name : string) (FLAGS : flags) : flags :=
  {| batch_size := batch_size FLAGS; learning_rate := learning_rate FLAGS;
     epsilon := epsilon FLAGS; max_length := max_length FLAGS;
     buffer_size := buffer_size FLAGS; use_xla := use_xla FLAGS;
     use_amp := use_amp FLAGS; epochs := epochs FLAGS; task := name;
     force_train := force_train FLAGS; evaluate := evaluate FLAGS |}.


Definition is_loss_scale (c : call) : bool :=
  match c with
  | LossScaleOptimizer _ _ => true
  | _ => false
  end.

(** The model the sample world builds for [model_new]. *)
Definition sample_model : keras_model :=
  {| model_id := 15; layers := [ {| weights := [] |} ] |}.

(** What each operation of [train] is given, in terms of the flags. *)
Definition consumes_flags (FLAGS : flags) (c : call) : Prop :=
  match c with
  | set_jit enabled => enabled = use_xla FLAGS
  | set_experimental_options options =>
      options = [("auto_mixed_precision", use_amp FLAGS)]
  | glue_get_labels name => name = task FLAGS
  | tfds_load name _ => name = "glue/" ++ _get_tfds_task (task FLAGS)
  | glue_convert_examples_to_features _ _ length name =>
      length = max_length FLAGS /\ name = task FLAGS
  | ds_shuffle _ size => size = buffer_size FLAGS
  | ds_batch _ size =>
      size = batch_size FLAGS \/ size = batch_size FLAGS * 2
  | Adam lr eps => lr = learning_rate FLAGS /\ eps = epsilon FLAGS
  | LossScaleOptimizer _ _ => use_amp FLAGS = true
  | model_evaluate _ _ _ _ => evaluate FLAGS = true
  | model_fit _ _ n _ _ _ => n = epochs FLAGS /\ evaluate FLAGS = false
  | path_exists p => p = checkpoint FLAGS /\ evaluate FLAGS = false
  | makedirs p _ | save_pretrained _ p =>
      p = model_path FLAGS /\ evaluate FLAGS = false
  | _ => True
  end.

(** The operations a completed run has performed, each with its flag. *)
Definition performs_with_flags (FLAGS : flags) (cs : list call) : Prop :=
  In (set_jit (use_xla FLAGS)) cs /\
  In (set_experimental_options [("auto_mixed_precision", use_amp FLAGS)]) cs /\
  In (glue_get_labels (task FLAGS)) cs /\
  In (tfds_load ("glue/" ++ _get_tfds_task (task FLAGS)) true) cs /\
  (exists d tok,
     In (glue_convert_examples_to_features d tok (max_length FLAGS)
           (task FLAGS)) cs) /\
  (exists d, In (ds_shuffle d (buffer_size FLAGS)) cs) /\
  (exists d, In (ds_batch d (batch_size FLAGS)) cs) /\
  In (Adam (learning_rate FLAGS) (epsilon FLAGS)) cs.

(** The exception the last event of a run carries. *)
Fixpoint last_raised (t : list event) : option exn :=
  match t with
  | [] => None
  | [ev] => raised ev
  | _ :: t' => last_raised t'
  end.

(** The exceptions the script's own operations raise: subscripts, indexing
    and division; all are Python's. *)
Definition script_errors : list exn :=
  [ KeyError "train"; KeyError "validation"; IndexError; TypeError;
    ZeroDivisionError ].

(** C3 as the specification words it: the model is saved, and the directory
    is named by the task name of the command line. *)
Definition saved_under_task_name (FLAGS : flags) (t : list event) : Prop :=
  (exists m p, In (save_pretrained m p) (calls t)) /\
  (forall m p, In (save_pretrained m p) (calls t) ->
               p = "./" ++ task FLAGS ++ "/").

(** C6 as the specification words it. *)
Definition one_fit_one_evaluate (t : list event) : Prop :=
  count is_fit t = 1%nat /\ count is_evaluate t = 1%nat.

(** The message of lines 136-137. *)
Definition skip_message (FLAGS : flags) : string :=
  "Model in " ++ model_path FLAGS
  ++ " already exists. Skipping training. "
  ++ "If you would like to force a re-train, "
  ++ "set the force_train flag.".

(** The local variables of [train] that can be bound when line 138 takes
    [locals()], in the order of the code object. *)
Definition train_variables : list string :=
  [ "argv"; "num_labels"; "tokenizer"; "data"; "info"; "train_examples";
    "valid_examples"; "train_dataset"; "valid_dataset"; "large_config";
    "large_model"; "config"; "model"; "_"; "weight_list"; "i";
    "large_weight"; "slice_indices"; "s"; "sliced_large_weight"; "opt";
    "loss"; "metric"; "model_path" ].

(** The world has the checkpoint file whenever it is asked. *)
Definition checkpoint_exists (w : world) (FLAGS : flags) : Prop :=
  forall past, w past (path_exists (checkpoint FLAGS)) = Ok true.

(** A run prints every flag with its value, in the form the script prints
    a variable. *)
Definition prints_flag_values (FLAGS : flags) (t : list event) : Prop :=
  forall name v,
    In (name, v) (flag_values FLAGS) ->
    In [Text (name ++ ":" ++ tab); Format (value_of_flag v)]
       (collect print_answer t).

(** C2 as the specification words it: with the checkpoint there and
    force_train unset the run skips training and prints the flag values;
    and, this being the only decision, a completed run that has not
    trained has taken it. *)
Definition skip_claim (w : world) (FLAGS : flags)
    (argv : option (list string)) : Prop :=
  (checkpoint_exists w FLAGS -> force_train FLAGS = false ->
   count trains_or_saves (trace w [] (train FLAGS argv)) = 0%nat /\
   prints_flag_values FLAGS (trace w [] (train FLAGS argv))) /\
  (result w [] (train FLAGS argv) = Ok tt ->
   count is_fit (trace w [] (train FLAGS argv)) = 0%nat ->
   checkpoint_exists w FLAGS /\ force_train FLAGS = false).

(** A printed line begins with the given text. *)
Definition line_starts (text : string) (line : list segment) : bool :=
  match line with
  | Text s :: _ => String.eqb s text
  | _ => false
  end.

(** ** Further notions: where values come from *)

(** Calls that succeeded, with the dataset, the loaded splits, the labels,
    the tokenizer, the loss or the metric they returned. *)
Definition dataset_answer (ev : event) : option (call * object Dataset) :=
  match ev with
  | Ev c o =>
      match c as c0
            return outcome (ret c0) -> option (call * object Dataset) with
      | glue_convert_examples_to_features examples tokenizer length name =>
          fun o =>
            match o with
            | Ok d =>
                Some (glue_convert_examples_to_features
                        examples tokenizer length name, d)
            | Exn _ => None
            end
      | ds_shuffle d0 size =>
          fun o => match o with
                   | Ok d => Some (ds_shuffle d0 size, d)
                   | Exn _ => None
                   end
      | ds_batch d0 size =>
          fun o => match o with
                   | Ok d => Some (ds_batch d0 size, d)
                   | Exn _ => None
                   end
      | ds_repeat d0 n =>
          fun o => match o with
                   | Ok d => Some (ds_repeat d0 n, d)
                   | Exn _ => None
                   end
      | _ => fun _ => None
      end o
  end.

Definition load_answer (ev : event)
  : option (string * (dataset_dict * dataset_info)) :=
  match ev with
  | Ev c o =>
      match c as c0
            return outcome (ret c0)
                   -> option (string * (dataset_dict * dataset_info)) with
      | tfds_load name _ =>
          fun o => match o with
                   | Ok loaded => Some (name, loaded)
                   | Exn _ => None
                   end
      | _ => fun _ => None
      end o
  end.

Definition labels_answer (ev : event) : option (list (option string)) :=
  match ev with
  | Ev c o =>
      match c as c0
            return outcome (ret c0) -> option (list (option string)) with
      | glue_get_labels _ =>
          fun o => match o with
                   | Ok labels => Some labels
                   | Exn _ => None
                   end
      | _ => fun _ => None
      end o
  end.

Definition tokenizer_answer (ev : event)
  : option (string * object Tokenizer) :=
  match ev with
  | Ev c o =>
      match c as c0
            return outcome (ret c0) -> option (string * object Tokenizer) with
      | tokenizer_from_pretrained name =>
          fun o => match o with
                   | Ok tok => Some (name, tok)
                   | Exn _ => None
                   end
      | _ => fun _ => None
      end o
  end.

Definition loss_answer (ev : event) : option (call * object Loss) :=
  match ev with
  | Ev c o =>
      match c as c0 return outcome (ret c0) -> option (call * object Loss) with
      | MeanSquaredError =>
          fun o => match o with
                   | Ok l => Some (MeanSquaredError, l)
                   | Exn _ => None
                   end
      | SparseCategoricalCrossentropy from_logits =>
          fun o => match o with
                   | Ok l => Some (SparseCategoricalCrossentropy from_logits, l)
                   | Exn _ => None
                   end
      | _ => fun _ => None
      end o
  end.

Definition metric_answer (ev : event) : option (string * object Metric) :=
  match ev with
  | Ev c o =>
      match c as c0
            return outcome (ret c0) -> option (string * object Metric) with
      | SparseCategoricalAccuracy name =>
          fun o => match o with
                   | Ok m => Some (name, m)
                   | Exn _ => None
                   end
      | _ => fun _ => None
      end o
  end.

(** Arguments of further calls. *)
Definition config_args (c : call) : option (string * Z * option Z) :=
  match c with
  | config_from_pretrained name num_labels dim => Some (name, num_labels, dim)
  | _ => None
  end.

Definition makedirs_args (c : call) : option (string * bool) :=
  match c with
  | makedirs p exist_ok => Some (p, exist_ok)
  | _ => None
  end.

(** The model a call acts on. *)
Definition model_of_call (c : call) : option keras_model :=
  match c with
  | model_predict m _ | layer_set_weights m _ _ | model_compile m _ _ _
  | model_summary m | model_evaluate m _ _ _ | model_fit m _ _ _ _ _
  | save_pretrained m _ => Some m
  | _ => None
  end.

(** The pipeline of lines 66-84 behind a training and a validation dataset:
    what was loaded, converted with the pretrained tokenizer, shuffled,
    batched and repeated. *)
Definition fed_by (FLAGS : flags) (t : list event)
    (train_dataset valid_dataset : object Dataset) : Prop :=
  exists name loaded tokenizer train_data valid_data
         train_features valid_features shuffled batched,
    In (name, loaded) (collect load_answer t) /\
    In ("distilbert-base-uncased", tokenizer) (collect tokenizer_answer t) /\
    dict_get "train" (fst loaded) = Some train_data /\
    dict_get "validation" (fst loaded) = Some valid_data /\
    In (glue_convert_examples_to_features train_data tokenizer
          (max_length FLAGS) (task FLAGS), train_features)
       (collect dataset_answer t) /\
    In (glue_convert_examples_to_features valid_data tokenizer
          (max_length FLAGS) (task FLAGS), valid_features)
       (collect dataset_answer t) /\
    In (ds_shuffle train_features (buffer_size FLAGS), shuffled)
       (collect dataset_answer t) /\
    In (ds_batch shuffled (batch_size FLAGS), batched)
       (collect dataset_answer t) /\
    In (ds_repeat batched (-1), train_dataset) (collect dataset_answer t) /\
    In (ds_batch valid_features (batch_size FLAGS * 2), valid_dataset)
       (collect dataset_answer t).

(** The step counts of lines 145-146, from the sizes the loaded info
    reports. *)
Definition steps_from_info (FLAGS : flags) (t : list event)
    (steps valid_steps : Z) : Prop :=
  exists name loaded train_split valid_split,
    In (name, loaded) (collect load_answer t) /\
    dict_get "train" (splits (snd loaded)) = Some train_split /\
    dict_get "validation" (splits (snd loaded)) = Some valid_split /\
    steps = num_examples train_split / batch_size FLAGS /\
    valid_steps = num_examples valid_split / (batch_size FLAGS * 2).

Definition is_save (c : call) : bool :=
  match c with
  | save_pretrained _ _ => true
  | _ => false
  end.

Definition with_force_train (FLAGS : flags) : flags :=
  {| batch_size := batch_size FLAGS; learning_rate := learning_rate FLAGS;
     epsilon := epsilon FLAGS; max_length := max_length FLAGS;
     buffer_size := buffer_size FLAGS; use_xla := use_xla FLAGS;
     use_amp := use_amp FLAGS; epochs := epochs FLAGS; task := task FLAGS;
     force_train := true; evaluate := evaluate FLAGS |}.

Definition with_batch_size (n : Z) (FLAGS : flags) : flags :=
  {| batch_size := n; learning_rate := learning_rate FLAGS;
     epsilon := epsilon FLAGS; max_length := max_length FLAGS;
     buffer_size := buffer_size FLAGS; use_xla := use_xla FLAGS;
     use_amp := use_amp FLAGS; epochs := epochs FLAGS; task := task FLAGS;
     force_train := force_train FLAGS; evaluate := evaluate FLAGS |}.

(** A multi-index inside a shape. *)
Fixpoint inside (ix : list nat) (sh : list Z) : Prop :=
  match ix, sh with
  | [], [] => True
  | i :: ix', n :: sh' => Z.of_nat i < n /\ inside ix' sh'
  | _, _ => False
  end.

(** ** Further notions: what a completed run has done *)

Definition predict_answer (ev : event)
  : option (call * object Predictions) :=
  match ev with
  | Ev c o =>
      match c as c0
            return outcome (ret c0) -> option (call * object Predictions) with
      | model_predict m d =>
          fun o => match o with
                   | Ok p => Some (model_predict m d, p)
                   | Exn _ => None
                   end
      | _ => fun _ => None
      end o
  end.

(** Lines 126-133 were taken: the two evaluations, on the training data
    with the step count of line 130 and on the validation data, and no
    fit. *)
Definition evaluated (FLAGS : flags) (t : list event)
    (train_dataset valid_dataset : object Dataset) : Prop :=
  exists m n,
    _get_train_length (task FLAGS) = Some n /\
    collect (of_call evaluate_args) t =
    [ (m, train_dataset, 2, Some (Z.quot n (batch_size FLAGS)));
      (m, valid_dataset, 2, None) ] /\
    count is_fit t = 0%nat.

(** Lines 136-142 were taken: nothing trained or saved, and the message
    printed. *)
Definition skipped (FLAGS : flags) (t : list event) : Prop :=
  count trains_or_saves t = 0%nat /\
  In [Text (skip_message FLAGS)] (collect print_answer t).

(** Lines 144-154 were taken: one fit, for the epochs of the flag, with the
    step counts of lines 145-146 and the validation data, then the output
    directory and the saving of the fitted model. *)
Definition trained (FLAGS : flags) (t : list event)
    (train_dataset valid_dataset : object Dataset) : Prop :=
  exists m steps valid_steps,
    collect (of_call fit_args) t =
    [ (m, train_dataset, epochs FLAGS, steps, valid_dataset, valid_steps) ] /\
    steps_from_info FLAGS t steps valid_steps /\
    collect (of_call makedirs_args) t = [ (model_path FLAGS, true) ] /\
    collect (of_call save_args) t = [ (m, model_path FLAGS) ].

(** Which of the three ends a run took, by the evaluate flag, the answer to
    the checkpoint test and the force_train flag. *)
Definition branch_taken (FLAGS : flags) (t : list event)
    (train_dataset valid_dataset : object Dataset) : Prop :=
  if evaluate FLAGS
  then evaluated FLAGS t train_dataset valid_dataset /\
       collect exists_answer t = []
  else exists found,
         collect exists_answer t = [ (checkpoint FLAGS, found) ] /\
         count is_evaluate t = 0%nat /\
         if found && negb (force_train FLAGS)
         then skipped FLAGS t
         else trained FLAGS t train_dataset valid_dataset.

(** The dictionary [locals()] returns at line 138, from what the run has
    been answered: every variable bound by then, in the order of the code
    object, with its value.  The variables of the weight loop are those
    [slice_weights] leaves; they are unbound when the first layer has no
    weights. *)
Definition locals_at_skip (FLAGS : flags) (argv : option (list string))
    (t : list event) (vars : list (string * pyvalue)) : Prop :=
  exists labels tokenizer name loaded train_split valid_split
         train_dataset valid_dataset large_config large_model config model
         underscore v adam opt loss metric,
    In labels (collect labels_answer t) /\
    In ("distilbert-base-uncased", tokenizer) (collect tokenizer_answer t) /\
    In (name, loaded) (collect load_answer t) /\
    dict_get "train" (splits (snd loaded)) = Some train_split /\
    dict_get "validation" (splits (snd loaded)) = Some valid_split /\
    fed_by FLAGS t train_dataset valid_dataset /\
    In (config_from_pretrained "distilbert-base-uncased" (len labels) None,
        large_config) (collect config_answer t) /\
    In (model_from_pretrained "distilbert-base-uncased" large_config,
        large_model) (collect model_answer t) /\
    In (config_from_pretrained "distilbert-base-uncased" (len labels)
          (Some 144), config) (collect config_answer t) /\
    In (model_new config, model) (collect model_answer t) /\
    In (model_predict model valid_dataset, underscore)
       (collect predict_answer t) /\
    slice_weights large_model = Return v /\
    In (Adam (learning_rate FLAGS) (epsilon FLAGS), adam)
       (collect optimizer_answer t) /\
    (if use_amp FLAGS
     then In (LossScaleOptimizer adam "dynamic", opt)
             (collect optimizer_answer t)
     else opt = adam) /\
    collect loss_answer t =
    [ (if len labels =? 1
       then MeanSquaredError
       else SparseCategoricalCrossentropy true, loss) ] /\
    In ("accuracy", metric) (collect metric_answer t) /\
    vars =
    bound
      [ ("argv", Some (match argv with
                       | Some l => VStrList l
                       | None => VNone
                       end));
        ("num_labels", Some (VInt (len labels)));
        ("tokenizer", Some (VObject tokenizer));
        ("data", Some (VDict (fst loaded)));
        ("info", Some (VInfo (snd loaded)));
        ("train_examples", Some (VInt (num_examples train_split)));
        ("valid_examples", Some (VInt (num_examples valid_split)));
        ("train_dataset", Some (VObject train_dataset));
        ("valid_dataset", Some (VObject valid_dataset));
        ("large_config", Some (VObject large_config));
        ("large_model", Some (VModel large_model));
        ("config", Some (VObject config));
        ("model", Some (VModel model));
        ("_", Some (VObject underscore));
        ("weight_list", Some (VTensorList (Loop.weight_list v)));
        ("i", option_map VInt (Loop.i v));
        ("large_weight", option_map VTensor (Loop.large_weight v));
        ("slice_indices", option_map VSlices (Loop.slice_indices v));
        ("s", option_map VInt (Loop.s v));
        ("sliced_large_weight",
          option_map VTensor (Loop.sliced_large_weight v));
        ("opt", Some (VObject opt));
        ("loss", Some (VObject loss));
        ("metric", Some (VObject metric));
        ("model_path", Some (VStr (model_path FLAGS))) ].

Definition load_args (c : call) : option (string * bool) :=
  match c with
  | tfds_load name with_info => Some (name, with_info)
  | _ => None
  end.

(** The configuration a model is built from, and for the pretrained model
    the name of its weights. *)
Definition build_args (c : call) : option (option string * object Config) :=
  match c with
  | model_from_pretrained name config => Some (Some name, config)
  | model_new config => Some (None, config)
  | _ => None
  end.

(** The two configuration requests of lines 86 and 88, in order. *)
Definition config_requests (labels : list (option string))
  : list (string * Z * option Z) :=
  [ ("distilbert-base-uncased", len labels, None);
    ("distilbert-base-uncased", len labels, Some 144) ].
(** ** Running scripts: general facts *)

Lemma trace_bind {A B} (w : world) (p : script A) (f : A -> script B) :
  forall past,
    trace w past (bind p f) =
    (trace w past p ++
     match result w past p with
     | Ok a => trace w (rev (trace w past p) ++ past) (f a)
     | Exn _ => []
     end)%list.
Proof.
  induction p as [a | e | c k IH]; intros past; simpl; try reflexivity.
  destruct (w past c) as [x | e]; simpl; [ | reflexivity ].
  rewrite IH, <- app_assoc. reflexivity.
Qed.

Lemma result_bind {A B} (w : world) (p : script A) (f : A -> script B) :
  forall past,
    result w past (bind p f) =
    match result w past p with
    | Ok a => result w (rev (trace w past p) ++ past)%list (f a)
    | Exn e => Exn e
    end.
Proof.
  induction p as [a | e | c k IH]; intros past; simpl; try reflexivity.
  destruct (w past c) as [x | e]; simpl; [ | reflexivity ].
  rewrite IH, <- app_assoc. reflexivity.
Qed.

(** An exception a call raises is the result of the run, and the call is the
    last of the trace. *)
Lemma trace_raised {R} (w : world) (p : script R) :
  forall past pre ev post e,
    trace w past p = (pre ++ ev :: post)%list ->
    raised ev = Some e ->
    post = [] /\ result w past p = Exn e.
Proof.
  induction p as [r | e0 | c k IH]; intros past pre ev post e Ht Hr; simpl in Ht.
  - destruct pre; discriminate.
  - destruct pre; discriminate.
  - simpl. destruct (w past c) as [x | e1].
    + destruct pre as [ | ev0 pre]; simpl in Ht.
      * injection Ht as Hev _. subst ev. discriminate.
      * injection Ht as _ Ht. eapply IH; eassumption.
    + destruct pre as [ | ev0 pre]; simpl in Ht.
      * injection Ht as Hev Hpost. subst ev. simpl in Hr.
        injection Hr as ->. auto.
      * injection Ht as _ Ht. destruct pre; discriminate.
Qed.

(** ** The two loops *)

Lemma fold_slice_step (sh : list Z) :
  forall acc s0,
    fst (fold_left slice_step sh (acc, s0)) = (acc ++ map slice_for sh)%list.
Proof.
  induction sh as [ | n sh IH]; intros acc s0; simpl.
  - now rewrite app_nil_r.
  - assert (Hstep : slice_step (acc, s0) n
                    = ((acc ++ [slice_for n])%list, Some n)).
    { unfold slice_step, slice_for. destruct (n =? 768); reflexivity. }
    rewrite Hstep, IH, <- app_assoc. reflexivity.
Qed.

Lemma slice_body_returns (lm : keras_model) (l0 : layer) (ls : list layer)
      (k : nat) (t : tensor float) (v : Loop.vars) :
  layers lm = l0 :: ls ->
  nth_error (weights l0) k = Some t ->
  exists v',
    slice_body lm v (Z.of_nat k) = Return v' /\
    Loop.weight_list v' = (Loop.weight_list v ++ [sliced t])%list.
Proof.
  intros Hl Ht. unfold slice_body. rewrite Hl. simpl.
  rewrite Nat2Z.id. unfold item. rewrite Ht. simpl.
  eexists. split; [ reflexivity | ]. simpl.
  rewrite fold_slice_step. reflexivity.
Qed.

Lemma for_each_slice_body (lm : keras_model) (l0 : layer) (ls : list layer) :
  layers lm = l0 :: ls ->
  forall (ws : list (tensor float)) (k : nat) (v : Loop.vars),
    skipn k (weights l0) = ws ->
    exists v',
      for_each (map Z.of_nat (seq k (List.length ws))) (slice_body lm) v
      = Return v' /\
      Loop.weight_list v' = (Loop.weight_list v ++ map sliced ws)%list.
Proof.
  intros Hl ws.
  induction ws as [ | t ws IH]; intros k v Hk; simpl.
  - exists v. now rewrite app_nil_r.
  - assert (Ht : nth_error (weights l0) k = Some t).
    { rewrite <- (Nat.add_0_r k), <- nth_error_skipn, Hk. reflexivity. }
    assert (Hk' : skipn (S k) (weights l0) = ws).
    { replace (S k) with (1 + k)%nat by reflexivity.
      rewrite <- skipn_skipn, Hk. reflexivity. }
    destruct (slice_body_returns lm l0 ls k t v Hl Ht) as (v1 & Hv1 & Hw1).
    rewrite Hv1. simpl.
    destruct (IH (S k) v1 Hk') as (v' & Hv' & Hw).
    exists v'. split; [ exact Hv' | ].
    rewrite Hw, Hw1, <- app_assoc. reflexivity.
Qed.

Lemma slice_weights_returns (lm : keras_model) (l0 : layer) (ls : list layer) :
  layers lm = l0 :: ls ->
  exists v,
    slice_weights lm = Return v /\
    Loop.weight_list v = map sliced (weights l0).
Proof.
  intros Hl. unfold slice_weights. rewrite Hl. simpl.
  unfold range, len. rewrite Nat2Z.id.
  destruct (for_each_slice_body lm l0 ls Hl (weights l0) 0%nat Loop.init eq_refl)
    as (v & Hv & Hw).
  exists v. split; assumption.
Qed.

Lemma slice_weights_no_layer (lm : keras_model) :
  layers lm = [] -> slice_weights lm = Raise IndexError.
Proof. intros Hl. unfold slice_weights. rewrite Hl. reflexivity. Qed.


(** ** A logic of runs *)

Lemma always_sound {R} (w : world) (p : script R) :
  forall past Q,
    always w past p Q -> Q (trace w past p) (result w past p).
Proof.
  induction p as [r | e | c k IH]; intros past Q H; simpl in *; try exact H.
  destruct H as [Hexn Hok].
  destruct (w past c) as [x | e]; simpl.
  - apply (IH x _ _ (Hok x eq_refl)).
  - apply Hexn. reflexivity.
Qed.

Lemma always_weaken {R} (w : world) (p : script R) :
  forall past (Q Q' : list event -> outcome R -> Prop),
    (forall t r, Q t r -> Q' t r) ->
    always w past p Q -> always w past p Q'.
Proof.
  induction p as [r | e | c k IH]; intros past Q Q' HQ H; simpl in *;
    try (apply HQ, H).
  destruct H as [Hexn Hok]. split.
  - intros e He. apply HQ, Hexn, He.
  - intros x Hx. apply (IH x _ (fun t r => Q (Ev c (Ok x) :: t) r)).
    + intros t r. apply HQ.
    + apply Hok, Hx.
Qed.

Lemma always_bind {A B} (w : world) (p : script A) (f : A -> script B) :
  forall past Q,
    always w past p
      (fun t r => match r with
                  | Ok a => always w (rev t ++ past)%list (f a)
                              (fun t' r' => Q (t ++ t')%list r')
                  | Exn e => Q t (Exn e)
                  end) ->
    always w past (bind p f) Q.
Proof.
  induction p as [r | e | c k IH]; intros past Q H; simpl in *; try exact H.
  destruct H as [Hexn Hok]. split; [ exact Hexn | ].
  intros x Hx. apply IH. specialize (Hok x Hx).
  revert Hok. apply always_weaken. intros t [a | e]; [ | exact (fun H => H) ].
  cbn [rev]. rewrite <- app_assoc. exact (fun H => H).
Qed.

Lemma always_run {R} (w : world) (p : script R)
    (P : list event -> outcome R -> Prop) :
  always w [] p P -> P (trace w [] p) (result w [] p).
Proof. apply always_sound. Qed.

Lemma always_print_vars (w : world) (vars : list (string * pyvalue)) :
  forall past (Q : list event -> outcome unit -> Prop),
    (forall t r, print_run vars t r -> Q t r) ->
    always w past (print_vars vars) Q.
Proof.
  unfold print_vars.
  induction vars as [ | [name v] vars IH]; intros past Q H.
  - apply (H [] (Ok tt)). split; reflexivity.
  - assert (Hprinted :
      printed ((name, v) :: vars) =
      if String.prefix "-" name then printed vars
      else var_line (name, v) :: printed vars).
    { unfold printed. cbn [filter fst]. destruct (String.prefix "-" name);
        reflexivity. }
    cbn [for_each fst snd].
    destruct (String.prefix "-" name); cbn [negb bind].
    + apply IH. intros t r [Hp Hr]. apply H. split; [ exact Hp | ].
      rewrite Hprinted. exact Hr.
    + split.
      * intros e _. apply H.
        split; [ reflexivity | ]. exists [], (var_line (name, v)). reflexivity.
      * intros x _. apply IH. intros t [u | e] [Hp Hr]; apply H.
        -- split; [ exact Hp | ]. rewrite Hprinted. cbn [calls map ev_call].
           unfold calls in Hr. rewrite Hr. reflexivity.
        -- split; [ exact Hp | ]. destruct Hr as (pre & line & ->).
           exists (Ev (print (var_line (name, v))) (Ok x) :: pre), line.
           reflexivity.
Qed.

(** What a run of prints adds to what is collected from a run. *)
Lemma collect_prints {A} (f : event -> option A) (t : list event) :
  (forall line o, f (Ev (print line) o) = None) ->
  forallb is_print (calls t) = true ->
  collect f t = [].
Proof.
  intros Hf. induction t as [ | [c o] t IH]; [ reflexivity | ].
  cbn [calls map ev_call forallb]. intros H.
  apply andb_prop in H. destruct H as [Hc Ht].
  destruct c; try discriminate Hc.
  cbn [collect]. rewrite Hf. apply IH, Ht.
Qed.

Lemma collect_In {A} (f : event -> option A) (t : list event)
    (ev : event) (a : A) :
  In ev t -> f ev = Some a -> In a (collect f t).
Proof.
  intros Hin Hf. induction t as [ | ev' t IH]; [ contradiction | ].
  cbn [collect]. destruct Hin as [-> | Hin].
  - rewrite Hf. left. reflexivity.
  - destruct (f ev'); [ right | ]; apply IH, Hin.
Qed.

Lemma collect_call {A} (g : call -> option A) (t : list event)
    (c : call) (a : A) :
  g c = Some a -> In c (calls t) -> In a (collect (of_call g) t).
Proof.
  unfold calls. rewrite in_map_iff. intros Hg ([c' o] & Hc & Hin).
  apply (collect_In _ _ _ _ Hin). unfold of_call.
  cbn [ev_call] in *. rewrite Hc. exact Hg.
Qed.

(** One step through a script, by the shape of its head. *)
Ltac step :=
  lazymatch goal with
  | |- always _ _ (Do _ _) _ =>
      let x := fresh "x" in let e := fresh "e" in
      let Hx := fresh "Hx" in let He := fresh "He" in
      split;
      [ intros e He; clear He
      | intros x Hx;
        lazymatch type of Hx with
        | _ _ (path_exists _) = _ => idtac
        | _ => clear Hx
        end;
        cbv beta ]
  | |- always _ _ (bind (_set_config _) _) _ =>
      unfold _set_config; cbn [bind]
  | |- always _ _ (bind (subscript ?d ?k) _) _ =>
      unfold subscript at 1; destruct (dict_get k d); cbn [bind]
  | |- always _ _ (bind (slice_weights ?lm) _) _ =>
      let l0 := fresh "l0" in let ls := fresh "ls" in let Hl := fresh "Hl" in
      destruct (layers lm) as [ | l0 ls] eqn:Hl;
      [ rewrite (slice_weights_no_layer lm Hl)
      | let v := fresh "v" in let Hv := fresh "Hv" in let Hw := fresh "Hw" in
        destruct (slice_weights_returns lm l0 ls Hl) as (v & Hv & Hw);
        rewrite Hv; clear Hv ];
      cbn [bind]
  | |- always _ _ (bind (item ?l ?n) _) _ =>
      unfold item at 1; destruct (nth_error l n); cbn [bind]
  | |- always _ _ (bind (int_truediv ?x ?y) _) _ =>
      let Hx := fresh "Hlen" in let Hy := fresh "Hzero" in
      unfold int_truediv at 1;
      destruct x eqn:Hx; [ destruct (y =? 0) eqn:Hy | ]; cbn [bind]
  | |- always _ _ (bind (floordiv ?x ?y) _) _ =>
      let Hy := fresh "Hzero" in
      unfold floordiv at 1; destruct (y =? 0) eqn:Hy; cbn [bind]
  | |- always _ _ (bind (print_vars _) _) _ =>
      let t := fresh "t" in let r := fresh "r" in let Hr := fresh "Hprint" in
      apply always_bind, always_print_vars; intros t r Hr;
      destruct r; cbn [always]; [ rewrite app_nil_r | ]
  | |- always _ _ (bind (if ?b then _ else _) _) _ =>
      let Hb := fresh "Hb" in destruct b eqn:Hb; cbn [bind]
  | |- always _ _ (if ?b then _ else _) _ =>
      let Hb := fresh "Hb" in destruct b eqn:Hb; try discriminate
  | |- always _ _ (let _ := _ in _) _ => cbv zeta
  | |- always _ _ (Return _) _ => cbn [always]
  | |- always _ _ (Raise _) _ => cbn [always]
  end.

Ltac run_train := unfold train; repeat step; cbv beta.

Lemma prints_satisfy (P : call -> Prop) (t : list event) :
  (forall line, P (print line)) ->
  forallb is_print (calls t) = true ->
  Forall P (calls t).
Proof.
  intros HP. unfold calls.
  induction t as [ | [c o] t IH]; simpl; intros H; constructor.
  - destruct c; try discriminate. apply HP.
  - apply IH. destruct (is_print c); [ exact H | discriminate ].
Qed.

(** The call list of a leaf. *)
Ltac in_order := cbv beta; cbn [calls map ev_call].

(** A property of every call, at a leaf. *)
Ltac leaf_call :=
  first [ exact I | reflexivity | cbn; auto; try congruence ].

Ltac leaf_forall :=
  in_order;
  lazymatch goal with
  | Hp : print_run _ ?t _ |- Forall _ (_ :: _) =>
      repeat (apply Forall_cons; [ leaf_call | ]);
      try (apply prints_satisfy; [ intros; exact I | apply Hp ])
  | |- _ => repeat (apply Forall_cons; [ leaf_call | ]); try apply Forall_nil
  end.

Lemma filter_prints (f : call -> bool) (t : list event) :
  (forall line, f (print line) = false) ->
  forallb is_print (calls t) = true ->
  filter f (map ev_call t) = [].
Proof.
  intros Hf. induction t as [ | [c o] t IH]; [ reflexivity | ].
  cbn [calls map ev_call forallb]. intros H.
  apply andb_prop in H. destruct H as [Hc Ht].
  destruct c; try discriminate Hc.
  cbn [filter]. rewrite Hf. apply IH, Ht.
Qed.

(** A count of calls, at a leaf. *)
Ltac counted :=
  unfold count;
  cbn [calls map ev_call filter is_fit is_evaluate is_loss_scale
       trains_or_saves];
  repeat match goal with
    | Hp : print_run _ ?t _ |- context [filter ?f (map ev_call ?t)] =>
        rewrite (filter_prints f t (fun _ => eq_refl) (proj1 Hp))
    end;
  cbn [List.length].

(** At a leaf that ends in a run of prints, nothing is collected from it. *)
Ltac drop_prints :=
  repeat match goal with
    | Hp : print_run _ ?t _, H : context [collect ?f ?t] |- _ =>
        rewrite (collect_prints f t (fun _ _ => eq_refl) (proj1 Hp)) in H
    | Hp : print_run _ ?t _ |- context [collect ?f ?t] =>
        rewrite (collect_prints f t (fun _ _ => eq_refl) (proj1 Hp))
    end.

(** A list given in full ends with a suffix given in full. *)
Ltac show_ends_with :=
  lazymatch goal with
  | |- ends_with ?s ?l =>
      exists (firstn (List.length l - List.length s) l); reflexivity
  end.

(** What is collected at a leaf. *)
Ltac collected :=
  cbn [collect of_call ev_call model_answer config_answer optimizer_answer
       exists_answer print_answer set_weights_args evaluate_args
       compile_args fit_args save_args] in *;
  drop_prints;
  cbn [In] in *.

(** Membership in a list given in full. *)
Ltac find_in := solve [ repeat (first [ left; reflexivity | right ]) ].

(** The branches taken, written back into the goal. *)
Ltac use_branches :=
  repeat match goal with
    | H : _ = true |- _ => rewrite H
    | H : _ = false |- _ => rewrite H
    end.

Lemma last_raised_snoc (pre : list event) (ev : event) :
  last_raised (pre ++ [ev]) = raised ev.
Proof.
  induction pre as [ | a pre IH]; [ reflexivity | ].
  cbn [app last_raised]. rewrite <- IH.
  destruct (pre ++ [ev])%list eqn:E; [ | reflexivity ].
  destruct pre; discriminate E.
Qed.

Lemma last_raised_cons (ev : event) (t : list event) (e : exn) :
  last_raised t = Some e -> last_raised (ev :: t) = Some e.
Proof.
  destruct t as [ | ev' t]; [ discriminate | ]. exact (fun H => H).
Qed.

(** ** Facts about every run that several properties share *)

Lemma tfds_names_of_run (w : world) (FLAGS : flags)
    (argv : option (list string)) :
  Forall (names_from_tfds_task FLAGS) (calls (trace w [] (train FLAGS argv))).
Proof.
  apply (always_run w (train FLAGS argv)
           (fun t _ => Forall (names_from_tfds_task FLAGS) (calls t))).
  run_train; leaf_forall.
Qed.

Lemma ends_with_refl {A} (l : list A) : ends_with l l.
Proof. exists []. reflexivity. Qed.

Lemma ends_with_cons {A} (a : A) (s l : list A) :
  ends_with s l -> ends_with s (a :: l).
Proof. intros [pre ->]. exists (a :: pre). reflexivity. Qed.

Lemma bound_names (l : list (string * option pyvalue)) :
  incl (map fst (bound l)) (map fst l).
Proof.
  induction l as [ | [name [v | ]] l IH]; cbn [bound map fst].
  - apply incl_refl.
  - intros x [Hx | Hx]; [ left; exact Hx | right; apply IH, Hx ].
  - intros x Hx. right. apply IH, Hx.
Qed.

Lemma bound_In (l : list (string * option pyvalue)) (name : string)
    (v : pyvalue) :
  In (name, Some v) l -> In (name, v) (bound l).
Proof.
  induction l as [ | [name' [v' | ]] l IH]; cbn [bound In].
  - exact (fun H => H).
  - intros [H | H]; [ left; injection H as -> ->; reflexivity
                    | right; apply IH, H ].
  - intros [H | H]; [ discriminate H | apply IH, H ].
Qed.

Lemma printed_bound (l : list (string * option pyvalue)) :
  forallb (fun name => negb (String.prefix "-" name)) (map fst l) = true ->
  printed (bound l) = map var_line (bound l).
Proof.
  unfold printed. induction l as [ | [name [v | ]] l IH];
    cbn [bound map fst forallb filter]; intros H.
  - reflexivity.
  - apply andb_prop in H. destruct H as [Hname Hl].
    rewrite Hname. cbn [map]. f_equal. apply IH, Hl.
  - apply andb_prop in H. destruct H as [_ Hl]. apply IH, Hl.
Qed.

(** ** Tactics for further properties of runs *)

(** Stepping that remembers what each subscript found. *)
Ltac step_eq :=
  lazymatch goal with
  | |- always _ _ (bind (subscript ?d ?k) _) _ =>
      let H := fresh "Hkey" in
      unfold subscript at 1; destruct (dict_get k d) eqn:H; cbn [bind]
  | |- _ => step
  end.

Ltac run_train_eq := unfold train; repeat step_eq; cbv beta.

Ltac split_cases H :=
  repeat (destruct H as [H | H]; [ | try contradiction ]);
  try contradiction.

(** Stepping that also remembers what the weight loop returned. *)
Ltac step_locals :=
  lazymatch goal with
  | |- always _ _ (bind (slice_weights ?lm) _) _ =>
      let l0 := fresh "l0" in let ls := fresh "ls" in let Hl := fresh "Hl" in
      destruct (layers lm) as [ | l0 ls] eqn:Hl;
      [ rewrite (slice_weights_no_layer lm Hl)
      | let v := fresh "v" in let Hv := fresh "Hv" in let Hw := fresh "Hw" in
        destruct (slice_weights_returns lm l0 ls Hl) as (v & Hv & Hw);
        rewrite Hv ];
      cbn [bind]
  | |- _ => step_eq
  end.

Ltac run_train_locals := unfold train; repeat step_locals; cbv beta.

(** ** What a completed run has done *)

Lemma completed_run (w : world) (FLAGS : flags)
    (argv : option (list string)) :
  result w [] (train FLAGS argv) = Ok tt ->
  exists train_dataset valid_dataset,
    fed_by FLAGS (trace w [] (train FLAGS argv))
      train_dataset valid_dataset /\
    branch_taken FLAGS (trace w [] (train FLAGS argv))
      train_dataset valid_dataset.
Proof.
  pose (Q := fun (t : list event) (r : outcome unit) =>
    r = Ok tt ->
    exists train_dataset valid_dataset,
      fed_by FLAGS t train_dataset valid_dataset /\
      branch_taken FLAGS t train_dataset valid_dataset).
  apply (always_run w (train FLAGS argv) Q).
  run_train_eq.
  all: subst Q; cbv beta; intros Hr; try discriminate Hr.
  all: do 2 eexists; split.
  (* the pipeline *)
  all: try (unfold fed_by; do 9 eexists;
            cbn [collect load_answer tokenizer_answer dataset_answer];
            drop_prints; cbn [In];
            split; [ left; reflexivity | ];
            split; [ left; reflexivity | ];
            split; [ eassumption | ]; split; [ eassumption | ];
            repeat (split; [ find_in | ]); find_in).
  (* the branch *)
  all: unfold branch_taken;
    match goal with
    | Hb : evaluate _ = _ |- _ => rewrite Hb
    end.
  all: cbv iota.
  all: first
         [ (* lines 126-133 *)
           split;
           [ unfold evaluated; do 2 eexists;
             split; [ eassumption | ];
             split; [ cbn [collect of_call ev_call evaluate_args]; reflexivity
                    | counted; reflexivity ]
           | cbn [collect exists_answer]; reflexivity ]
         | eexists; split; [ collected; reflexivity | ];
           split; [ counted; reflexivity | ];
           match goal with
           | Hb : (_ && negb _) = _ |- _ => rewrite Hb
           end;
           cbv iota ].
  all: first
         [ (* lines 136-142 *)
           unfold skipped; split; [ counted; reflexivity | ];
           cbn [collect print_answer]; left; reflexivity
         | (* lines 144-154 *)
           unfold trained; do 3 eexists;
           split; [ cbn [collect of_call ev_call fit_args]; reflexivity | ];
           split;
           [ unfold steps_from_info; do 4 eexists;
             cbn [collect load_answer]; cbn [In];
             split; [ left; reflexivity | ];
             split; [ eassumption | ]; split; [ eassumption | ];
             split; reflexivity
           | split; cbn [collect of_call ev_call makedirs_args save_args];
             reflexivity ] ].
Qed.

(** ** The weight transplant (C1) *)

Lemma slice_list_first_144 {B} (xs : list B) :
  slice_list (slice (Some 0) (Some 144)) xs = firstn 144 xs.
Proof.
  unfold slice_list, slice_len, slice_start, slice_stop, clamp.
  change (0 <? 0) with false. change (144 <? 0) with false. cbv iota.
  set (n := List.length xs).
  assert (Hn : 0 <= Z.of_nat n) by lia.
  rewrite (Z.min_l 0 (Z.of_nat n)) by lia. change (Z.to_nat 0) with 0%nat.
  cbn [skipn]. rewrite Z.sub_0_r.
  destruct (Nat.le_gt_cases n 144) as [Hle | Hgt].
  - rewrite Z.min_r, Z.max_r by lia. rewrite Nat2Z.id.
    subst n. rewrite firstn_all, firstn_all2 by exact Hle. reflexivity.
  - rewrite Z.min_l, Z.max_r by lia. reflexivity.
Qed.

Lemma slice_list_whole {B} (xs : list B) :
  slice_list (slice None None) xs = xs.
Proof.
  unfold slice_list, slice_len, slice_start, slice_stop, clamp.
  change (Z.to_nat 0) with 0%nat. cbn [skipn].
  rewrite Z.sub_0_r, Z.max_r, Nat2Z.id by lia. apply firstn_all.
Qed.

Lemma getitem_crop (sh : list Z) :
  forall a : ndarray float,
    getitem (map slice_for sh) a =
    crop (map (fun n => if n =? 768 then Some 144%nat else None) sh) a.
Proof.
  induction sh as [ | n sh IH]; intros a; [ reflexivity | ].
  destruct a as [x | xs]; [ reflexivity | ].
  cbn [map getitem crop]. f_equal.
  replace (slice_for n)
    with (if n =? 768 then slice (Some 0) (Some 144) else slice None None)
    by reflexivity.
  destruct (n =? 768).
  - rewrite slice_list_first_144. apply map_ext, IH.
  - rewrite slice_list_whole. apply map_ext, IH.
Qed.

Lemma slice_shape_sizes (sh : list Z) :
  forallb (Z.leb 0) sh = true ->
  slice_shape (map slice_for sh) sh =
  map (fun n => if n =? 768 then 144 else n) sh.
Proof.
  induction sh as [ | n sh IH]; [ reflexivity | ].
  cbn [forallb map slice_shape]. intros H.
  apply andb_prop in H. destruct H as [Hn Hsh]. apply Z.leb_le in Hn.
  rewrite (IH Hsh). f_equal.
  unfold slice_for, slice_len, slice_start, slice_stop, clamp.
  destruct (Z.eqb_spec n 768) as [-> | Hne]; [ reflexivity | ].
  lia.
Qed.

(** On a tensor that has its static shape, the loop body does what the
    specification says. *)
Lemma sliced_first_144_of_768 (t : tensor float) :
  tensor_ok t = true -> sliced t = first_144_of_768 t.
Proof.
  unfold tensor_ok, sliced, first_144_of_768, tensor_getitem. intros H.
  apply andb_prop in H. destruct H as [Hsh _].
  rewrite getitem_crop, slice_shape_sizes by exact Hsh. reflexivity.
Qed.

Lemma map_sliced (ws : list (tensor float)) :
  forallb tensor_ok ws = true -> map sliced ws = map first_144_of_768 ws.
Proof.
  intros H. apply map_ext_in. intros t Ht.
  apply sliced_first_144_of_768.
  rewrite forallb_forall in H. apply H, Ht.
Qed.

(** Every entry the crop keeps is the entry of the whole array at the same
    index. *)
Lemma lookup_crop (ks : list (option nat)) :
  forall (ix : list nat) (a : ndarray float),
    within ks ix -> lookup ix (crop ks a) = lookup ix a.
Proof.
  induction ks as [ | k ks IH]; intros ix a Hin.
  - destruct a; reflexivity.
  - destruct a as [x | xs]; [ reflexivity | ].
    destruct ix as [ | i ix]; [ reflexivity | ].
    cbn [within] in Hin. destruct Hin as [Hi Hix].
    cbn [crop lookup]. rewrite nth_error_map.
    assert (Hnth : nth_error
                     match k with
                     | Some n => firstn n xs
                     | None => xs
                     end i = nth_error xs i).
    { destruct k as [n | ]; [ | reflexivity ].
      rewrite nth_error_firstn.
      destruct (Nat.ltb_spec i n); [ reflexivity | lia ]. }
    rewrite Hnth. destruct (nth_error xs i) as [a | ]; [ | reflexivity ].
    cbn [option_map]. apply IH, Hix.
Qed.

(** C1: whenever a run sets weights, it sets them on layer 0 of the model
    it built from the dim=144 configuration, and the list it sets is, weight
    by weight and in order, what the loop body makes of the first-layer
    weights of the pretrained model: on tensors that have their static
    shape, each dimension of size 768 cut down to its first 144 entries and
    every other dimension whole.  Every run that completes has set them. *)
Theorem C1_first_layer_weights_transplanted :
  forall (w : world) (FLAGS : flags) (argv : option (list string)),
    (forall m n ws,
       In (layer_set_weights m n ws) (calls (trace w [] (train FLAGS argv))) ->
       exists num_labels large_config config large_model l0 ls,
         In (model_from_pretrained "distilbert-base-uncased" large_config,
             large_model)
            (collect model_answer (trace w [] (train FLAGS argv))) /\
         In (config_from_pretrained "distilbert-base-uncased" num_labels
               (Some 144), config)
            (collect config_answer (trace w [] (train FLAGS argv))) /\
         In (model_new config, m)
            (collect model_answer (trace w [] (train FLAGS argv))) /\
         n = 0%nat /\
         layers large_model = l0 :: ls /\
         ws = map sliced (weights l0) /\
         (forallb tensor_ok (weights l0) = true ->
          ws = map first_144_of_768 (weights l0))) /\
    (result w [] (train FLAGS argv) = Ok tt ->
     exists m ws,
       In (layer_set_weights m 0 ws) (calls (trace w [] (train FLAGS argv)))).
Proof.
  intros w FLAGS argv.
  apply (always_run w (train FLAGS argv)
           (fun t r =>
              (forall m n ws,
                 In (layer_set_weights m n ws) (calls t) ->
                 exists num_labels large_config config large_model l0 ls,
                   In (model_from_pretrained "distilbert-base-uncased"
                         large_config, large_model)
                      (collect model_answer t) /\
                   In (config_from_pretrained "distilbert-base-uncased"
                         num_labels (Some 144), config)
                      (collect config_answer t) /\
                   In (model_new config, m) (collect model_answer t) /\
                   n = 0%nat /\
                   layers large_model = l0 :: ls /\
                   ws = map sliced (weights l0) /\
                   (forallb tensor_ok (weights l0) = true ->
                    ws = map first_144_of_768 (weights l0))) /\
              (r = Ok tt ->
               exists m ws, In (layer_set_weights m 0 ws) (calls t)))).
  run_train.
  all: (split;
    [ intros m n ws Hin;
      apply (collect_call set_weights_args _ (layer_set_weights m n ws) _
               eq_refl) in Hin
    | intros Hr; try discriminate Hr ]).
  all: collected.
  all: try contradiction.
  all: try (do 2 eexists; cbn [calls map ev_call];
                 repeat (first [ left; reflexivity | right ]); fail).
  all: destruct Hin as [Hin | []]; injection Hin as <- <- <-.
  all: do 6 eexists.
  all: split; [ left; reflexivity | ].
  all: split; [ right; left; reflexivity | ].
  all: split; [ right; left; reflexivity | ].
  all: repeat (split; [ first [ reflexivity | eassumption ] | ]).
  all: intros Hok; rewrite Hw; apply map_sliced, Hok.
Qed.

Lemma C1_first_layer_weights_transplanted_witness :
  exists m ws,
    In (layer_set_weights m 0 ws)
       (calls (trace (sample_world []) [] (train default_flags None))) /\
    ws = map first_144_of_768 sample_weights /\
    map get_shape ws = [[2; 144]; [144]; [144; 3]; [3]].
Proof.
  destruct (C1_first_layer_weights_transplanted
              (sample_world []) default_flags None) as [Hset Hdone].
  assert (Hr : result (sample_world []) [] (train default_flags None) = Ok tt)
    by (vm_compute; reflexivity).
  destruct (Hdone Hr) as (m & ws & Hin).
  exists m, ws. split; [ exact Hin | ].
  destruct (Hset m 0%nat ws Hin)
    as (nl & lc & c & lm & l0 & ls & Hlm & _ & _ & _ & Hl & _ & Hspec).
  assert (Hmodels :
    collect model_answer
      (trace (sample_world []) [] (train default_flags None)) =
    [ (model_from_pretrained "distilbert-base-uncased" (Obj Config 12),
       {| model_id := 13; layers := [ {| weights := sample_weights |} ] |});
      (model_new (Obj Config 14),
       {| model_id := 15; layers := [ {| weights := [] |} ] |}) ])
    by (vm_compute; reflexivity).
  rewrite Hmodels in Hlm. destruct Hlm as [Hlm | [Hlm | []]];
    [ | discriminate Hlm ].
  injection Hlm as _ <-. injection Hl as <- _.
  assert (Hok : forallb tensor_ok sample_weights = true)
    by (vm_compute; reflexivity).
  assert (Hws : ws = map first_144_of_768 sample_weights)
    by exact (Hspec Hok).
  split; [ exact Hws | ]. rewrite Hws. vm_compute. reflexivity.
Defined.

(** ** Skipping training (C2) *)

(** C2 as worded fails twice.  With the checkpoint there and the default
    flags the run skips training, but what it prints are the local
    variables of [train]: no line is batch_size with its value.  And with
    the evaluate flag a run completes without training although there is
    no checkpoint: the test of line 135 is not the only decision. *)
Lemma C2_skip_claim_counterexample :
  ~ skip_claim (sample_world ["./sst2/tf_model.h5"]) default_flags None /\
  ~ skip_claim (sample_world []) (with_evaluate default_flags) None.
Proof.
  split.
  - intros [Hskip _].
    destruct Hskip as [_ Hprints];
      [ intros past; reflexivity | reflexivity | ].
    specialize (Hprints "batch_size" (FInt 32) (or_introl eq_refl)).
    assert (Hyes :
      existsb (line_starts ("batch_size" ++ ":" ++ tab))
        (collect print_answer
           (trace (sample_world ["./sst2/tf_model.h5"]) []
              (train default_flags None))) = true).
    { apply existsb_exists. eexists. split; [ exact Hprints | reflexivity ]. }
    assert (Hno :
      existsb (line_starts ("batch_size" ++ ":" ++ tab))
        (collect print_answer
           (trace (sample_world ["./sst2/tf_model.h5"]) []
              (train default_flags None))) = false)
      by (vm_compute; reflexivity).
    rewrite Hno in Hyes. discriminate Hyes.
  - intros [_ Honly].
    destruct Honly as [Hexists _];
      [ vm_compute; reflexivity | vm_compute; reflexivity | ].
    specialize (Hexists []). discriminate Hexists.
Qed.

(** C2, amended: a run calls neither fit nor makedirs nor save_pretrained
    when the evaluate flag is set, and also when the checkpoint file exists
    and force_train is unset; in the second case, without the evaluate flag,
    a run that completes ends by printing the message that the model exists
    and then exactly one line, name and value, for each bound local
    variable of [train], in order: argv as passed, the number of labels,
    the tokenizer, the loaded data and info, the two split sizes, the two
    datasets of the pipeline, both configurations and models, the
    prediction, what the weight loop left, the optimizer, loss and metric,
    and the output directory.  None of these variables is a flag. *)
Theorem C2_skips_training_and_prints_locals :
  forall (w : world) (FLAGS : flags) (argv : option (list string)),
    (evaluate FLAGS = true \/
     checkpoint_exists w FLAGS /\ force_train FLAGS = false ->
     count trains_or_saves (trace w [] (train FLAGS argv)) = 0%nat) /\
    (evaluate FLAGS = false ->
     checkpoint_exists w FLAGS -> force_train FLAGS = false ->
     result w [] (train FLAGS argv) = Ok tt ->
     exists vars,
       locals_at_skip FLAGS argv (trace w [] (train FLAGS argv)) vars /\
       ends_with
         (print [Text (skip_message FLAGS)] :: map print (printed vars))
         (calls (trace w [] (train FLAGS argv))) /\
       printed vars = map var_line vars /\
       incl (map fst vars) train_variables /\
       In ("model_path", VStr (model_path FLAGS)) vars) /\
    forallb
      (fun name =>
         negb (existsb (String.eqb name) (map flag_name flag_definitions)))
      train_variables = true.
Proof.
  intros w FLAGS argv.
  pose (Q := fun (t : list event) (r : outcome unit) =>
    (evaluate FLAGS = true \/
     checkpoint_exists w FLAGS /\ force_train FLAGS = false ->
     count trains_or_saves t = 0%nat) /\
    (evaluate FLAGS = false ->
     checkpoint_exists w FLAGS -> force_train FLAGS = false ->
     r = Ok tt ->
     exists vars,
       locals_at_skip FLAGS argv t vars /\
       ends_with
         (print [Text (skip_message FLAGS)] :: map print (printed vars))
         (calls t) /\
       printed vars = map var_line vars /\
       incl (map fst vars) train_variables /\
       In ("model_path", VStr (model_path FLAGS)) vars)).
  assert (Hrun : Q (trace w [] (train FLAGS argv))
                   (result w [] (train FLAGS argv)));
    [ | subst Q; cbv beta in Hrun; destruct Hrun as [H1 H2];
        split; [ exact H1 | split; [ exact H2 | reflexivity ] ] ].
  apply (always_run w (train FLAGS argv) Q).
  run_train_locals.
  all: subst Q; cbv beta.
  all: split.
  (* nothing trains or saves *)
  all: try (intros Hwhy; counted;
            first
              [ reflexivity
              | exfalso; destruct Hwhy as [Hev | [Hexists Hforce]];
                [ congruence
                | match goal with
                  | Hx : _ ?past (path_exists _) = Ok ?x,
                    Hb : (?x && negb (force_train _)) = false |- _ =>
                      assert (Hfound : Ok x = Ok true)
                        by (rewrite <- Hx; exact (Hexists past));
                      injection Hfound as ->; rewrite Hforce in Hb;
                      discriminate Hb
                  end ] ]).
  (* the lines printed *)
  all: intros Hev Hexists Hforce Hr; try discriminate Hr; try congruence.
  all: try (exfalso;
            match goal with
            | Hx : _ ?past (path_exists _) = Ok ?x,
              Hb : (?x && negb (force_train _)) = false |- _ =>
                assert (Hfound : Ok x = Ok true)
                  by (rewrite <- Hx; exact (Hexists past));
                injection Hfound as ->; rewrite Hforce in Hb;
                discriminate Hb
            end).
  all: match goal with
       | Hp : print_run ?vars _ _ |- _ =>
           exists vars; pose proof (proj2 Hp) as Hlines
       end.
  all: split;
    [ | split;
        [ cbn [calls map ev_call]; unfold calls in Hlines; rewrite Hlines;
          repeat first [ exact (ends_with_refl _) | apply ends_with_cons ]
        | split; [ apply printed_bound; reflexivity | ];
          split; [ apply bound_names | apply bound_In; find_in ] ] ].
  (* the values printed *)
  all: unfold locals_at_skip; do 18 eexists.
  all: cbn [collect labels_answer tokenizer_answer load_answer config_answer
            model_answer predict_answer optimizer_answer loss_answer
            metric_answer];
    drop_prints; cbn [In].
  all: split; [ left; reflexivity | ].
  all: split; [ left; reflexivity | ].
  all: split; [ left; reflexivity | ].
  all: split; [ eassumption | ]. all: split; [ eassumption | ].
  all: split;
    [ unfold fed_by; do 9 eexists;
      cbn [collect load_answer tokenizer_answer dataset_answer];
      drop_prints; cbn [In];
      split; [ left; reflexivity | ];
      split; [ left; reflexivity | ];
      split; [ eassumption | ]; split; [ eassumption | ];
      repeat (split; [ find_in | ]); find_in
    | ].
  all: do 5 (split; [ find_in | ]).
  all: split; [ eassumption | ].
  all: split; [ find_in | ].
  all: split;
    [ match goal with
      | Hb : use_amp _ = _ |- _ => rewrite Hb
      end;
      first [ reflexivity | find_in ]
    | ].
  all: split;
    [ match goal with
      | Hb : (len _ =? 1) = _ |- _ => rewrite Hb
      end;
      reflexivity
    | ].
  all: split; [ find_in | reflexivity ].
Qed.

Lemma C2_skips_training_and_prints_locals_witness :
  count trains_or_saves
    (trace (sample_world ["./sst2/tf_model.h5"]) []
       (train default_flags None)) = 0%nat /\
  exists vars,
    locals_at_skip default_flags None
      (trace (sample_world ["./sst2/tf_model.h5"]) []
         (train default_flags None)) vars /\
    ends_with
      (print [Text (skip_message default_flags)] :: map print (printed vars))
      (calls (trace (sample_world ["./sst2/tf_model.h5"]) []
                (train default_flags None))) /\
    In ("model_path", VStr "./sst2/") vars.
Proof.
  destruct (C2_skips_training_and_prints_locals
              (sample_world ["./sst2/tf_model.h5"]) default_flags None)
    as (Hskip & Hprints & _).
  assert (Hexists :
    checkpoint_exists (sample_world ["./sst2/tf_model.h5"]) default_flags)
    by (intros past; reflexivity).
  split.
  - apply Hskip. right. split; [ exact Hexists | reflexivity ].
  - destruct (Hprints eq_refl Hexists eq_refl)
      as (vars & Hlocals & Hends & _ & _ & Hin).
    + vm_compute. reflexivity.
    + exists vars.
      split; [ exact Hlocals | ]. split; [ exact Hends | exact Hin ].
Defined.

(** ** The output directory (C3) *)

(** C3 as worded fails on the default task: the run trained on sst-2 saves
    into ./sst2/, not into a directory named sst-2. *)
Lemma C3_saved_under_task_name_counterexample :
  ~ saved_under_task_name default_flags
      (trace (sample_world []) [] (train default_flags None)).
Proof.
  intros [_ Hnamed].
  assert (Hin : In (save_pretrained sample_model "./sst2/")
                  (calls (trace (sample_world []) []
                            (train default_flags None))))
    by (vm_compute; find_in).
  apply Hnamed in Hin. discriminate Hin.
Qed.

(** C3, amended: whatever a run saves, it saves into ./ followed by
    [_get_tfds_task] of the task name; a run that has called fit and
    completes ends with fit, the making of that directory and the saving of
    the fitted model into it; the directory is the task name itself for
    every task but sst-2 and sts-b. *)
Theorem C3_saved_under_tfds_task_name :
  forall (w : world) (FLAGS : flags) (argv : option (list string)),
    (forall m p,
       In (save_pretrained m p) (calls (trace w [] (train FLAGS argv))) ->
       p = "./" ++ _get_tfds_task (task FLAGS) ++ "/") /\
    (forall m d n steps vd vsteps,
       In (model_fit m d n steps vd vsteps)
          (calls (trace w [] (train FLAGS argv))) ->
       result w [] (train FLAGS argv) = Ok tt ->
       ends_with
         [ model_fit m d n steps vd vsteps;
           makedirs (model_path FLAGS) true;
           save_pretrained m (model_path FLAGS) ]
         (calls (trace w [] (train FLAGS argv)))) /\
    (task FLAGS <> "sst-2" -> task FLAGS <> "sts-b" ->
     model_path FLAGS = "./" ++ task FLAGS ++ "/").
Proof.
  intros w FLAGS argv.
  split; [ | split ].
  - intros m p Hin.
    pose proof (tfds_names_of_run w FLAGS argv) as Hall.
    rewrite Forall_forall in Hall. apply (Hall _ Hin).
  - apply (always_run w (train FLAGS argv)
             (fun t r =>
                forall m d n steps vd vsteps,
                  In (model_fit m d n steps vd vsteps) (calls t) ->
                  r = Ok tt ->
                  ends_with
                    [ model_fit m d n steps vd vsteps;
                      makedirs (model_path FLAGS) true;
                      save_pretrained m (model_path FLAGS) ]
                    (calls t))).
    run_train.
    all: intros m d n steps vd vsteps Hin Hr; try discriminate Hr.
    all: apply (collect_call fit_args _
                  (model_fit m d n steps vd vsteps) _ eq_refl) in Hin.
    all: collected.
    all: try contradiction.
    all: destruct Hin as [Hin | []]; injection Hin as <- <- <- <- <- <-.
    all: cbn [calls map ev_call]; show_ends_with.
  - intros Hsst Hsts. unfold model_path, _get_tfds_task.
    destruct (String.eqb_spec (task FLAGS) "sst-2"); [ contradiction | ].
    destruct (String.eqb_spec (task FLAGS) "sts-b"); [ contradiction | ].
    reflexivity.
Qed.

Lemma C3_saved_under_tfds_task_name_witness :
  ends_with
    [ model_fit sample_model (Obj Dataset 10) 3 2104 (Obj Dataset 11) 13;
      makedirs "./sst2/" true;
      save_pretrained sample_model "./sst2/" ]
    (calls (trace (sample_world []) [] (train default_flags None))) /\
  model_path (with_task "mrpc" default_flags) = "./mrpc/".
Proof.
  split.
  - destruct (C3_saved_under_tfds_task_name
                (sample_world []) default_flags None) as (_ & Hfit & _).
    apply Hfit.
    + vm_compute. find_in.
    + vm_compute. reflexivity.
  - destruct (C3_saved_under_tfds_task_name
                (sample_world []) (with_task "mrpc" default_flags) None)
      as (_ & _ & Hname).
    apply Hname; discriminate.
Defined.

(** ** The training length evaluate mode divides (C4) *)

Lemma train_length_other (task : string) :
  task <> "sst-2" -> task <> "sts-b" -> _get_train_length task = None.
Proof.
  intros H1 H2. unfold _get_train_length.
  destruct (String.eqb_spec task "sst-2"); [ contradiction | ].
  destruct (String.eqb_spec task "sts-b"); [ contradiction | ].
  reflexivity.
Qed.

(** C4: [_get_train_length] is 67349 for sst-2, 5749 for sts-b and [None]
    for every other task.  In evaluate mode the step count of the
    evaluation on the training data is that length over the batch size,
    truncated; for any other task no evaluation call is made and the run
    does not complete: once it has printed that it evaluates on the training
    dataset, it ends in a TypeError. *)
Theorem C4_evaluate_needs_train_length :
  _get_train_length "sst-2" = Some 67349 /\
  _get_train_length "sts-b" = Some 5749 /\
  (forall task, task <> "sst-2" -> task <> "sts-b" ->
                _get_train_length task = None) /\
  (forall (w : world) (FLAGS : flags) (argv : option (list string)),
     evaluate FLAGS = true ->
     (forall m d verbose steps,
        In (model_evaluate m d verbose (Some steps))
           (calls (trace w [] (train FLAGS argv))) ->
        exists n, _get_train_length (task FLAGS) = Some n /\
                  batch_size FLAGS <> 0 /\
                  steps = Z.quot n (batch_size FLAGS)) /\
     (task FLAGS <> "sst-2" -> task FLAGS <> "sts-b" ->
      count is_evaluate (trace w [] (train FLAGS argv)) = 0%nat /\
      result w [] (train FLAGS argv) <> Ok tt /\
      (In [Text "Evaluating on the training dataset..."]
          (collect print_answer (trace w [] (train FLAGS argv))) ->
       result w [] (train FLAGS argv) = Exn TypeError))).
Proof.
  split; [ reflexivity | ]. split; [ reflexivity | ].
  split; [ exact train_length_other | ].
  intros w FLAGS argv Hev.
  apply (always_run w (train FLAGS argv)
           (fun t r =>
              (forall m d verbose steps,
                 In (model_evaluate m d verbose (Some steps)) (calls t) ->
                 exists n, _get_train_length (task FLAGS) = Some n /\
                           batch_size FLAGS <> 0 /\
                           steps = Z.quot n (batch_size FLAGS)) /\
              (task FLAGS <> "sst-2" -> task FLAGS <> "sts-b" ->
               count is_evaluate t = 0%nat /\
               r <> Ok tt /\
               (In [Text "Evaluating on the training dataset..."]
                   (collect print_answer t) ->
                r = Exn TypeError)))).
  run_train.
  all: try congruence.
  all: split;
    [ intros m d verbose steps Hin;
      apply (collect_call evaluate_args _
               (model_evaluate m d verbose (Some steps)) _ eq_refl) in Hin
    | intros Hsst Hsts;
      try (rewrite (train_length_other _ Hsst Hsts) in Hlen;
           discriminate Hlen) ].
  all: collected.
  all: try contradiction.
  all: try (repeat (destruct Hin as [Hin | Hin]; try discriminate Hin);
            try contradiction;
            injection Hin as _ _ _ <-; eexists;
            split; [ reflexivity | ];
            split; [ apply Z.eqb_neq; assumption | reflexivity ]).
  all: split; [ reflexivity | ].
  all: split; [ discriminate | ].
  all: intros Hin;
    repeat (destruct Hin as [Hin | Hin]; try discriminate Hin);
    try contradiction; reflexivity.
Qed.

Lemma C4_evaluate_needs_train_length_witness :
  _get_train_length "mrpc" = None /\
  count is_evaluate
    (trace (sample_world []) []
       (train (with_evaluate (with_task "mrpc" default_flags)) None)) = 0%nat /\
  result (sample_world []) []
    (train (with_evaluate (with_task "mrpc" default_flags)) None)
  = Exn TypeError.
Proof.
  destruct C4_evaluate_needs_train_length as (_ & _ & Hnone & Hrun).
  split; [ apply Hnone; discriminate | ].
  destruct (Hrun (sample_world [])
              (with_evaluate (with_task "mrpc" default_flags)) None eq_refl)
    as [_ Hother].
  destruct Hother as (Hcount & _ & Herr); [ discriminate | discriminate | ].
  split; [ exact Hcount | ].
  apply Herr. vm_compute. right. right. left. reflexivity.
Defined.

(** ** The flags and what consumes them (C5) *)

(** C5: the script defines the eleven flags batch_size, learning_rate,
    epsilon, max_length, buffer_size, use_xla, use_amp, epochs, task,
    force_train and evaluate, and no other, and these are the values a run
    is given.  In every run each operation is given the value of its flag,
    evaluation calls occur only with evaluate set, the checkpoint test, fit
    and the save only without it, and fit is reached only when force_train
    is set or the checkpoint was not found.  A run that completes has
    consumed every flag: use_xla and use_amp in the settings, task for the
    labels and the data, learning_rate and epsilon in Adam, a loss-scale
    wrapper exactly when use_amp is set; max_length and task in both
    conversions, buffer_size in the shuffle, batch_size for the training
    batches and twice batch_size for the validation batches; and evaluate,
    force_train and the answer of the checkpoint test have selected its
    end: the two evaluations, on the training data for the task's training
    length divided by batch_size and on the validation data; or the
    message that training is skipped; or one fit for epochs epochs, with
    the split sizes floor-divided by batch_size and by twice batch_size as
    step counts, followed by the save. *)
Theorem C5_flags_are_consumed :
  map flag_name flag_definitions =
  [ "batch_size"; "learning_rate"; "epsilon"; "max_length"; "buffer_size";
    "use_xla"; "use_amp"; "epochs"; "task"; "force_train"; "evaluate" ] /\
  flag_values default_flags =
  map (fun d => (flag_name d, flag_default d)) flag_definitions /\
  (forall (w : world) (FLAGS : flags) (argv : option (list string)),
     map fst (flag_values FLAGS) = map flag_name flag_definitions /\
     Forall (consumes_flags FLAGS) (calls (trace w [] (train FLAGS argv))) /\
     (count is_fit (trace w [] (train FLAGS argv)) <> 0%nat ->
      force_train FLAGS = true \/
      In (checkpoint FLAGS, false)
         (collect exists_answer (trace w [] (train FLAGS argv)))) /\
     (result w [] (train FLAGS argv) = Ok tt ->
      performs_with_flags FLAGS (calls (trace w [] (train FLAGS argv))) /\
      count is_loss_scale (trace w [] (train FLAGS argv)) =
      (if use_amp FLAGS then 1%nat else 0%nat) /\
      exists train_dataset valid_dataset,
        fed_by FLAGS (trace w [] (train FLAGS argv))
          train_dataset valid_dataset /\
        branch_taken FLAGS (trace w [] (train FLAGS argv))
          train_dataset valid_dataset)).
Proof.
  split; [ reflexivity | ]. split; [ reflexivity | ].
  intros w FLAGS argv.
  split; [ reflexivity | ].
  pose (Q := fun (t : list event) (r : outcome unit) =>
    Forall (consumes_flags FLAGS) (calls t) /\
    (count is_fit t <> 0%nat ->
     force_train FLAGS = true \/
     In (checkpoint FLAGS, false) (collect exists_answer t)) /\
    (r = Ok tt ->
     performs_with_flags FLAGS (calls t) /\
     count is_loss_scale t = (if use_amp FLAGS then 1%nat else 0%nat))).
  assert (Hrun : Q (trace w [] (train FLAGS argv))
                   (result w [] (train FLAGS argv))).
  { apply (always_run w (train FLAGS argv) Q).
    run_train.
    all: subst Q; cbv beta.
    all: split; [ leaf_forall | ].
    all: split;
      [ counted; intros Hfit; try (exfalso; apply Hfit; reflexivity)
      | intros Hr; try discriminate Hr ].
    all: try match goal with
           | Hb : (?x && negb (force_train ?F)) = false |- _ \/ _ =>
               destruct x;
               [ left; destruct (force_train F);
                 [ reflexivity | discriminate Hb ]
               | right; collected; left; reflexivity ]
           end.
    all: split; [ | counted; use_branches; reflexivity ].
    all: unfold performs_with_flags; cbn [calls map ev_call]; use_branches.
    all: repeat (split; [ find_in | ]).
    all: repeat (split; [ do 2 eexists; find_in | ]).
    all: repeat (split; [ eexists; find_in | ]).
    all: find_in. }
  subst Q. cbv beta in Hrun. destruct Hrun as (Heach & Hfit & Hdone).
  split; [ exact Heach | ]. split; [ exact Hfit | ].
  intros Hr. destruct (Hdone Hr) as [Hperforms Hscale].
  split; [ exact Hperforms | ]. split; [ exact Hscale | ].
  exact (completed_run w FLAGS argv Hr).
Qed.

Lemma C5_flags_are_consumed_witness :
  performs_with_flags default_flags
    (calls (trace (sample_world []) [] (train default_flags None))) /\
  In (checkpoint default_flags, false)
     (collect exists_answer
        (trace (sample_world []) [] (train default_flags None))) /\
  (exists train_dataset valid_dataset,
     trained default_flags
       (trace (sample_world []) [] (train default_flags None))
       train_dataset valid_dataset) /\
  (exists train_dataset valid_dataset,
     evaluated (with_evaluate default_flags)
       (trace (sample_world []) []
          (train (with_evaluate default_flags) None))
       train_dataset valid_dataset).
Proof.
  destruct C5_flags_are_consumed as (_ & _ & Hrun).
  destruct (Hrun (sample_world []) default_flags None)
    as (_ & _ & Hfit & Hdone).
  destruct (Hrun (sample_world []) (with_evaluate default_flags) None)
    as (_ & _ & _ & Hdone').
  assert (Hdefault :
    result (sample_world []) [] (train default_flags None) = Ok tt)
    by (vm_compute; reflexivity).
  assert (Hwith :
    result (sample_world []) [] (train (with_evaluate default_flags) None)
    = Ok tt) by (vm_compute; reflexivity).
  assert (Hnone :
    collect exists_answer
      (trace (sample_world []) [] (train default_flags None)) =
    [ (checkpoint default_flags, false) ]) by (vm_compute; reflexivity).
  destruct (Hdone Hdefault) as (Hperforms & _ & td & vd & _ & Hbranch).
  destruct (Hdone' Hwith) as (_ & _ & td' & vd' & _ & Hbranch').
  split; [ exact Hperforms | ].
  split.
  - destruct Hfit as [Hforce | Hfound].
    + vm_compute. discriminate.
    + discriminate Hforce.
    + exact Hfound.
  - split.
    + exists td, vd.
      destruct Hbranch as (found & Hfound & _ & Hend).
      rewrite Hnone in Hfound. injection Hfound as <-. exact Hend.
    + exists td', vd'. exact (proj1 Hbranch').
Defined.

(** ** How often the training and evaluation loops are called (C6) *)

(** C6 as worded fails on the default run: it calls fit once and evaluate
    not at all. *)
Lemma C6_one_fit_one_evaluate_counterexample :
  ~ one_fit_one_evaluate
      (trace (sample_world []) [] (train default_flags None)).
Proof.
  intros [_ Hevaluate]. vm_compute in Hevaluate. discriminate Hevaluate.
Qed.

(** C6, amended: a run calls fit at most once and evaluate at most twice,
    and never both.  A run that completes with the evaluate flag set has
    called evaluate twice and fit not at all: first on the training data,
    for the training length of the task divided by batch_size, then on the
    validation data, both times on the same model.  One that completes
    without the flag has not called evaluate, and has called fit exactly
    once, on the training data with the validation data for validation,
    unless the checkpoint was found and force_train is unset, in which case
    it has not called fit.  The training data are the train split
    converted, shuffled, batched and repeated, the validation data the
    validation split converted and batched. *)
Theorem C6_fit_and_evaluate_counts :
  forall (w : world) (FLAGS : flags) (argv : option (list string)),
    (count is_fit (trace w [] (train FLAGS argv)) <= 1)%nat /\
    (count is_evaluate (trace w [] (train FLAGS argv)) <= 2)%nat /\
    (count is_fit (trace w [] (train FLAGS argv)) = 0%nat \/
     count is_evaluate (trace w [] (train FLAGS argv)) = 0%nat) /\
    (result w [] (train FLAGS argv) = Ok tt ->
     (if evaluate FLAGS
      then count is_fit (trace w [] (train FLAGS argv)) = 0%nat /\
           count is_evaluate (trace w [] (train FLAGS argv)) = 2%nat
      else count is_evaluate (trace w [] (train FLAGS argv)) = 0%nat /\
           (count is_fit (trace w [] (train FLAGS argv)) = 1%nat \/
            count is_fit (trace w [] (train FLAGS argv)) = 0%nat /\
            force_train FLAGS = false /\
            In (checkpoint FLAGS, true)
               (collect exists_answer (trace w [] (train FLAGS argv))))) /\
     exists train_dataset valid_dataset,
       fed_by FLAGS (trace w [] (train FLAGS argv))
         train_dataset valid_dataset /\
       if evaluate FLAGS
       then exists m n,
              _get_train_length (task FLAGS) = Some n /\
              collect (of_call evaluate_args) (trace w [] (train FLAGS argv))
              = [ (m, train_dataset, 2, Some (Z.quot n (batch_size FLAGS)));
                  (m, valid_dataset, 2, None) ] /\
              collect (of_call fit_args) (trace w [] (train FLAGS argv)) = []
       else collect (of_call evaluate_args) (trace w [] (train FLAGS argv))
            = [] /\
            exists found,
              collect exists_answer (trace w [] (train FLAGS argv)) =
              [ (checkpoint FLAGS, found) ] /\
              if found && negb (force_train FLAGS)
              then collect (of_call fit_args) (trace w [] (train FLAGS argv))
                   = []
              else exists m steps valid_steps,
                     collect (of_call fit_args)
                       (trace w [] (train FLAGS argv)) =
                     [ (m, train_dataset, epochs FLAGS, steps,
                        valid_dataset, valid_steps) ]).
Proof.
  intros w FLAGS argv.
  pose (Q := fun (t : list event) (r : outcome unit) =>
    (count is_fit t <= 1)%nat /\
    (count is_evaluate t <= 2)%nat /\
    (count is_fit t = 0%nat \/ count is_evaluate t = 0%nat) /\
    (r = Ok tt ->
     (if evaluate FLAGS
      then count is_fit t = 0%nat /\ count is_evaluate t = 2%nat
      else count is_evaluate t = 0%nat /\
           (count is_fit t = 1%nat \/
            count is_fit t = 0%nat /\
            force_train FLAGS = false /\
            In (checkpoint FLAGS, true) (collect exists_answer t))) /\
     (count is_fit t = 0%nat -> collect (of_call fit_args) t = []) /\
     (count is_evaluate t = 0%nat ->
      collect (of_call evaluate_args) t = []))).
  assert (Hrun : Q (trace w [] (train FLAGS argv))
                   (result w [] (train FLAGS argv))).
  { apply (always_run w (train FLAGS argv) Q).
    run_train.
    all: subst Q; cbv beta.
    all: counted.
    all: split; [ lia | ]. all: split; [ lia | ].
    all: split; [ first [ left; reflexivity | right; reflexivity ] | ].
    all: intros Hr; try discriminate Hr.
    all: split;
      [ | split; intros Hnone; first [ discriminate Hnone | idtac ];
          cbn [collect of_call ev_call fit_args evaluate_args];
          drop_prints; reflexivity ].
    all: try rewrite Hb; try rewrite Hb0; try rewrite Hb1; try rewrite Hb2.
    all: cbv iota.
    all: split; [ reflexivity | ].
    all: try reflexivity.
    all: first
           [ left; reflexivity
           | right; split; [ reflexivity | ];
             match goal with
             | Hb : (?x && negb (force_train ?F)) = true |- _ =>
                 apply andb_prop in Hb;
                 destruct Hb as [Hfound Hforce]; rewrite Hfound;
                 split; [ destruct (force_train F);
                          [ discriminate Hforce | reflexivity ]
                        | collected; left; reflexivity ]
             end ]. }
  subst Q. cbv beta in Hrun.
  destruct Hrun as (Hfit & Hevaluate & Hnever & Hdone).
  split; [ exact Hfit | ]. split; [ exact Hevaluate | ].
  split; [ exact Hnever | ].
  intros Hr. destruct (Hdone Hr) as (Hcounts & Hnofit & Hnoevaluate).
  split; [ exact Hcounts | ].
  destruct (completed_run w FLAGS argv Hr) as (td & vd & Hfed & Hbranch).
  exists td, vd. split; [ exact Hfed | ].
  unfold branch_taken in Hbranch.
  destruct (evaluate FLAGS).
  - destruct Hbranch as [(m & n & Hlen & Hcalls & Hzero) _].
    exists m, n. split; [ exact Hlen | ]. split; [ exact Hcalls | ].
    apply Hnofit, Hzero.
  - destruct Hbranch as (found & Hfound & Hzero & Hend).
    split; [ apply Hnoevaluate, Hzero | ].
    exists found. split; [ exact Hfound | ].
    destruct (found && negb (force_train FLAGS)).
    + destruct Hend as [Hskip _]. apply Hnofit.
      destruct Hcounts as [_ [Hone | [Hnone _]]]; [ | exact Hnone ].
      exfalso. revert Hskip Hone. unfold count, trains_or_saves, is_fit.
      generalize (calls (trace w [] (train FLAGS argv))).
      intros cs. induction cs as [ | c cs IH]; cbn [filter List.length];
        [ discriminate | ].
      destruct c; cbn [List.length]; try exact IH; discriminate.
    + destruct Hend as (m & steps & valid_steps & Hcalls & _).
      exists m, steps, valid_steps. exact Hcalls.
Qed.

Lemma C6_fit_and_evaluate_counts_witness :
  count is_evaluate
    (trace (sample_world []) [] (train default_flags None)) = 0%nat /\
  (exists m steps valid_steps,
     collect (of_call fit_args)
       (trace (sample_world []) [] (train default_flags None)) =
     [ (m, Obj Dataset 10, 3, steps, Obj Dataset 11, valid_steps) ]) /\
  count is_fit
    (trace (sample_world []) [] (train (with_evaluate default_flags) None))
  = 0%nat /\
  count is_evaluate
    (trace (sample_world []) [] (train (with_evaluate default_flags) None))
  = 2%nat /\
  (exists m,
     collect (of_call evaluate_args)
       (trace (sample_world []) []
          (train (with_evaluate default_flags) None)) =
     [ (m, Obj Dataset 10, 2, Some 2104); (m, Obj Dataset 11, 2, None) ]).
Proof.
  assert (Hdefault :
    result (sample_world []) [] (train default_flags None) = Ok tt)
    by (vm_compute; reflexivity).
  assert (Hwith :
    result (sample_world []) [] (train (with_evaluate default_flags) None)
    = Ok tt) by (vm_compute; reflexivity).
  destruct (C6_fit_and_evaluate_counts
              (sample_world []) default_flags None) as (_ & _ & _ & Hdone).
  destruct (Hdone Hdefault) as ([Hnone _] & td & vd & _ & Hcalls).
  destruct (C6_fit_and_evaluate_counts
              (sample_world []) (with_evaluate default_flags) None)
    as (_ & _ & _ & Hdone').
  destruct (Hdone' Hwith) as ([Hnofit Htwice] & td' & vd' & _ & Hcalls').
  cbv iota beta in Hcalls, Hcalls'.
  split; [ exact Hnone | ].
  split.
  - destruct Hcalls as (_ & found & _ & Hfit).
    assert (Hfitted :
      collect (of_call fit_args)
        (trace (sample_world []) [] (train default_flags None)) =
      [ (sample_model, Obj Dataset 10, 3, 2104, Obj Dataset 11, 13) ])
      by (vm_compute; reflexivity).
    exists sample_model, 2104, 13. exact Hfitted.
  - split; [ exact Hnofit | ]. split; [ exact Htwice | ].
    assert (Hevaluated :
      collect (of_call evaluate_args)
        (trace (sample_world []) []
           (train (with_evaluate default_flags) None)) =
      [ (sample_model, Obj Dataset 10, 2, Some 2104);
        (sample_model, Obj Dataset 11, 2, None) ])
      by (vm_compute; reflexivity).
    exists sample_model. exact Hevaluated.
Defined.

(** ** Exceptions (C7) *)

(** C7: nothing in [train] catches an exception.  A call that raises is the
    last event of the run and its exception is the result of the run; and
    whenever a run ends in an exception, it is the one its last call
    raised, or one of Python's own from a subscript, an index or a division
    of the script: the script has no exceptions of its own. *)
Theorem C7_exceptions_propagate :
  forall (w : world) (FLAGS : flags) (argv : option (list string)),
    (forall pre ev post e,
       trace w [] (train FLAGS argv) = (pre ++ ev :: post)%list ->
       raised ev = Some e ->
       post = [] /\ result w [] (train FLAGS argv) = Exn e) /\
    (forall e,
       result w [] (train FLAGS argv) = Exn e ->
       last_raised (trace w [] (train FLAGS argv)) = Some e \/
       In e script_errors).
Proof.
  intros w FLAGS argv. split.
  - intros pre ev post e. apply trace_raised.
  - apply (always_run w (train FLAGS argv)
             (fun t r =>
                forall e,
                  r = Exn e -> last_raised t = Some e \/ In e script_errors)).
    run_train.
    all: intros e' He'; try discriminate He'; injection He' as <-.
    all: first
           [ left; reflexivity
           | right; unfold script_errors; cbn [In]; find_in
           | left; destruct Hprint as [_ (pre & line & ->)];
             repeat apply last_raised_cons; apply last_raised_snoc ].
Qed.

Lemma C7_exceptions_propagate_witness :
  result (sample_world []) [] (train (with_task "nope" default_flags) None)
  = Exn (KeyError "nope").
Proof.
  destruct (C7_exceptions_propagate
              (sample_world []) (with_task "nope" default_flags) None)
    as [Hraise _].
  apply (Hraise
           [ Ev set_up_environment (Ok tt);
             Ev (set_jit false) (Ok tt);
             Ev (set_experimental_options [("auto_mixed_precision", false)])
               (Ok tt) ]
           (Ev (glue_get_labels "nope") (Exn (KeyError "nope")))
           []).
  - vm_compute. reflexivity.
  - reflexivity.
Defined.

(** ** XLA and mixed precision (C8) *)



(** ** Task names (C9) *)

(** C9: [_get_tfds_task] sends sst-2 to sst2 and sts-b to stsb and leaves
    every other task name as it is.  In every run each dataset load, test of
    the checkpoint, made directory and save carries a name built from its
    result; once the tokenizer has answered, the run has asked for exactly
    one dataset, glue/ followed by the helper's result, with its info.  A
    run that completes has loaded that dataset, and without the evaluate
    flag it has tested exactly the file tf_model.h5 under ./ followed by
    the helper's result, and, unless that was found with force_train unset,
    has made exactly that directory (existing or not) and saved the model
    into it. *)
Theorem C9_tfds_task_names :
  _get_tfds_task "sst-2" = "sst2" /\
  _get_tfds_task "sts-b" = "stsb" /\
  (forall task, task <> "sst-2" -> task <> "sts-b" ->
                _get_tfds_task task = task) /\
  (forall (w : world) (FLAGS : flags) (argv : option (list string)),
     Forall (names_from_tfds_task FLAGS)
       (calls (trace w [] (train FLAGS argv))) /\
     (collect tokenizer_answer (trace w [] (train FLAGS argv)) <> [] ->
      collect (of_call load_args) (trace w [] (train FLAGS argv)) =
      [ ("glue/" ++ _get_tfds_task (task FLAGS), true) ]) /\
     (result w [] (train FLAGS argv) = Ok tt ->
      collect (of_call load_args) (trace w [] (train FLAGS argv)) =
      [ ("glue/" ++ _get_tfds_task (task FLAGS), true) ] /\
      (evaluate FLAGS = false ->
       exists found,
         collect exists_answer (trace w [] (train FLAGS argv)) =
         [ (("./" ++ _get_tfds_task (task FLAGS) ++ "/") ++ "tf_model.h5",
            found) ] /\
         (found && negb (force_train FLAGS) = false ->
          collect (of_call makedirs_args) (trace w [] (train FLAGS argv)) =
          [ ("./" ++ _get_tfds_task (task FLAGS) ++ "/", true) ] /\
          exists m,
            collect (of_call save_args) (trace w [] (train FLAGS argv)) =
            [ (m, "./" ++ _get_tfds_task (task FLAGS) ++ "/") ])))).
Proof.
  split; [ reflexivity | ]. split; [ reflexivity | ]. split.
  - intros task H1 H2. unfold _get_tfds_task.
    destruct (String.eqb_spec task "sst-2"); [ contradiction | ].
    destruct (String.eqb_spec task "sts-b"); [ contradiction | ].
    reflexivity.
  - intros w FLAGS argv.
    split; [ apply tfds_names_of_run | ].
    assert (Hload :
      collect tokenizer_answer (trace w [] (train FLAGS argv)) <> [] ->
      collect (of_call load_args) (trace w [] (train FLAGS argv)) =
      [ ("glue/" ++ _get_tfds_task (task FLAGS), true) ]).
    { pose (Q := fun (t : list event) (r : outcome unit) =>
        collect tokenizer_answer t <> [] ->
        collect (of_call load_args) t =
        [ ("glue/" ++ _get_tfds_task (task FLAGS), true) ]).
      apply (always_run w (train FLAGS argv) Q).
      run_train.
      all: subst Q; cbv beta.
      all: cbn [collect of_call ev_call tokenizer_answer load_args];
        drop_prints.
      all: intros Hanswered;
        first [ reflexivity | exfalso; apply Hanswered; reflexivity ]. }
    split; [ exact Hload | ].
    intros Hr.
    destruct (completed_run w FLAGS argv Hr) as (td & vd & Hfed & Hbranch).
    split.
    + apply Hload.
      destruct Hfed as (name & loaded & tokenizer & d1 & d2 & f1 & f2 & sh
                        & b & _ & Htokenizer & _).
      intros Hnone. rewrite Hnone in Htokenizer. exact Htokenizer.
    + intros Hev.
      unfold branch_taken in Hbranch. rewrite Hev in Hbranch.
      destruct Hbranch as (found & Hfound & _ & Hdone).
      exists found. split; [ exact Hfound | ].
      intros Htrain. rewrite Htrain in Hdone.
      destruct Hdone as (m & steps & valid_steps & _ & _ & Hdir & Hsave).
      split; [ exact Hdir | exists m; exact Hsave ].
Qed.

Lemma C9_tfds_task_names_witness :
  _get_tfds_task "mrpc" = "mrpc" /\
  collect (of_call load_args)
    (trace (sample_world []) [] (train default_flags None)) =
  [ ("glue/sst2", true) ] /\
  collect exists_answer
    (trace (sample_world []) [] (train default_flags None)) =
  [ ("./sst2/tf_model.h5", false) ] /\
  collect (of_call makedirs_args)
    (trace (sample_world []) [] (train default_flags None)) =
  [ ("./sst2/", true) ] /\
  exists m,
    collect (of_call save_args)
      (trace (sample_world []) [] (train default_flags None)) =
    [ (m, "./sst2/") ].
Proof.
  destruct C9_tfds_task_names as (_ & _ & Hid & Hrun).
  split; [ apply Hid; discriminate | ].
  destruct (Hrun (sample_world []) default_flags None)
    as (_ & _ & Hdone).
  destruct Hdone as (Hload & Hout); [ vm_compute; reflexivity | ].
  split; [ exact Hload | ].
  destruct (Hout eq_refl) as (found & Hfound & Hdir).
  assert (Hnone :
    collect exists_answer
      (trace (sample_world []) [] (train default_flags None)) =
    [ ("./sst2/tf_model.h5", false) ]) by (vm_compute; reflexivity).
  split; [ exact Hnone | ].
  rewrite Hnone in Hfound. injection Hfound as <-.
  destruct (Hdir eq_refl) as (Hmade & m & Hsave).
  split; [ exact Hmade | exists m; exact Hsave ].
Defined.

(** ** Evaluate mode (C10) *)

(** C10: with the evaluate flag set, no run fits, looks for the checkpoint,
    makes the output directory or saves, whatever the world answers and
    whatever force_train is; a run that completes ends with the two
    evaluation calls, on the training and on the validation data. *)
Theorem C10_evaluate_mode_leaves_output_alone :
  forall (w : world) (FLAGS : flags) (argv : option (list string)),
    evaluate FLAGS = true ->
    Forall (fun c => touches_output c = false)
      (calls (trace w [] (train FLAGS argv))) /\
    (result w [] (train FLAGS argv) = Ok tt ->
     count is_evaluate (trace w [] (train FLAGS argv)) = 2%nat /\
     exists m train_dataset valid_dataset steps,
       ends_with
         [ print [Text "Evaluating on the training dataset..."];
           model_evaluate m train_dataset 2 (Some steps);
           print [Text "Evaluating on the validation dataset..."];
           model_evaluate m valid_dataset 2 None ]
         (calls (trace w [] (train FLAGS argv)))).
Proof.
  intros w FLAGS argv Hev.
  apply (always_run w (train FLAGS argv)
           (fun t r =>
              Forall (fun c => touches_output c = false) (calls t) /\
              (r = Ok tt ->
               count is_evaluate t = 2%nat /\
               exists m train_dataset valid_dataset steps,
                 ends_with
                   [ print [Text "Evaluating on the training dataset..."];
                     model_evaluate m train_dataset 2 (Some steps);
                     print [Text "Evaluating on the validation dataset..."];
                     model_evaluate m valid_dataset 2 None ]
                   (calls t)))).
  run_train.
  all: try congruence.
  all: split; [ leaf_forall | intros Hr; try discriminate Hr ].
  all: split; [ reflexivity | ].
  all: do 4 eexists; cbn [calls map ev_call]; show_ends_with.
Qed.

Lemma C10_evaluate_mode_leaves_output_alone_witness :
  Forall (fun c => touches_output c = false)
    (calls (trace (sample_world ["./sst2/tf_model.h5"]) []
              (train (with_evaluate default_flags) None))) /\
  count is_evaluate
    (trace (sample_world ["./sst2/tf_model.h5"]) []
       (train (with_evaluate default_flags) None)) = 2%nat.
Proof.
  destruct (C10_evaluate_mode_leaves_output_alone
              (sample_world ["./sst2/tf_model.h5"])
              (with_evaluate default_flags) None eq_refl) as [Hnone Hdone].
  split; [ exact Hnone | ].
  apply Hdone. vm_compute. reflexivity.
Defined.

(** ** More on the weight loop (lines 93-105) *)

Lemma crop_whole (ks : list (option nat)) :
  Forall (fun k => k = None) ks ->
  forall a : ndarray float, crop ks a = a.
Proof.
  induction 1 as [ | k ks Hk _ IH]; intros a; [ destruct a; reflexivity | ].
  destruct a as [x | xs]; [ reflexivity | ].
  cbn [crop]. rewrite Hk. f_equal.
  rewrite (map_ext _ (fun a => a) IH). apply map_id.
Qed.

Lemma firstn_subset {B} (n : nat) (l : list B) (x : B) :
  In x (firstn n l) -> In x l.
Proof.
  intros H. rewrite <- (firstn_skipn n l). apply in_or_app. left. exact H.
Qed.

Lemma well_shaped_crop (sh : list Z) :
  forall a : ndarray float,
    well_shaped sh a = true ->
    well_shaped (map (fun n => if n =? 768 then 144 else n) sh)
      (crop (map (fun n => if n =? 768 then Some 144%nat else None) sh) a)
    = true.
Proof.
  induction sh as [ | n sh IH]; intros a Ha; [ exact Ha | ].
  destruct a as [x | xs]; [ discriminate Ha | ].
  cbn [well_shaped] in Ha. apply andb_prop in Ha. destruct Ha as [Hn Hxs].
  apply Z.eqb_eq in Hn. rewrite forallb_forall in Hxs.
  cbn [map crop well_shaped]. apply andb_true_intro. split.
  - rewrite length_map. apply Z.eqb_eq.
    destruct (Z.eqb_spec n 768) as [H768 | _]; [ | exact Hn ].
    rewrite length_firstn. lia.
  - apply forallb_forall. intros y Hy. apply in_map_iff in Hy.
    destruct Hy as (x & <- & Hx). apply IH, Hxs.
    destruct (n =? 768); [ exact (firstn_subset _ _ _ Hx) | exact Hx ].
Qed.

Lemma sizes_not_negative (sh : list Z) :
  forallb (Z.leb 0) sh = true ->
  forallb (Z.leb 0) (map (fun n => if n =? 768 then 144 else n) sh) = true.
Proof.
  induction sh as [ | n sh IH]; [ reflexivity | ].
  cbn [forallb map]. intros H. apply andb_prop in H. destruct H as [Hn Hsh].
  rewrite (IH Hsh), andb_true_r. destruct (n =? 768); [ reflexivity | exact Hn ].
Qed.

Lemma within_inside (sh : list Z) :
  forall ix,
    inside ix (map (fun n => if n =? 768 then 144 else n) sh) ->
    within (map (fun n => if n =? 768 then Some 144%nat else None) sh) ix.
Proof.
  induction sh as [ | n sh IH]; intros ix Hix; [ destruct ix; exact I | ].
  destruct ix as [ | i ix]; [ exact I | ].
  cbn [map inside within] in *. destruct Hix as [Hi Hix].
  split; [ | apply IH, Hix ].
  destruct (n =? 768); [ lia | exact I ].
Qed.

Lemma lookup_inside (sh : list Z) :
  forall (ix : list nat) (a : ndarray float),
    well_shaped sh a = true -> inside ix sh -> lookup ix a <> None.
Proof.
  induction sh as [ | n sh IH]; intros ix a Ha Hix.
  - destruct ix; [ | contradiction ]. destruct a; [ discriminate | discriminate Ha ].
  - destruct ix as [ | i ix]; [ contradiction | ].
    destruct a as [x | xs]; [ discriminate Ha | ].
    cbn [well_shaped inside lookup] in *.
    apply andb_prop in Ha. destruct Ha as [Hn Hxs].
    apply Z.eqb_eq in Hn. rewrite forallb_forall in Hxs.
    destruct Hix as [Hi Hix].
    destruct (nth_error xs i) as [a | ] eqn:Hnth.
    + apply (IH ix a); [ apply Hxs, (nth_error_In _ _ Hnth) | exact Hix ].
    + apply nth_error_None in Hnth. lia.
Qed.

Lemma sliced_keeps_ok (t : tensor float) :
  tensor_ok t = true ->
  tensor_ok (sliced t) = true /\
  List.length (get_shape (sliced t)) = List.length (get_shape t) /\
  Forall (fun n => n <> 768) (get_shape (sliced t)).
Proof.
  intros Hok. rewrite (sliced_first_144_of_768 t Hok).
  unfold tensor_ok in *. apply andb_prop in Hok. destruct Hok as [Hsh Hval].
  cbn [first_144_of_768 get_shape values]. split; [ | split ].
  - apply andb_true_intro. split.
    + apply sizes_not_negative, Hsh.
    + apply well_shaped_crop, Hval.
  - apply length_map.
  - apply Forall_forall. intros n Hn. apply in_map_iff in Hn.
    destruct Hn as (m & <- & _).
    destruct (Z.eqb_spec m 768); [ discriminate | assumption ].
Qed.


(** X1: the slicing keeps a weight well formed: what the loop appends has
    the shape it declares, of the same rank as the pretrained weight and
    with no dimension of size 768 left. *)
Theorem sliced_is_well_formed :
  forall t : tensor float,
    tensor_ok t = true ->
    tensor_ok (sliced t) = true /\
    List.length (get_shape (sliced t)) = List.length (get_shape t) /\
    Forall (fun n => n <> 768) (get_shape (sliced t)).
Proof. exact sliced_keeps_ok. Qed.

Lemma sliced_is_well_formed_witness :
  Forall (fun t => tensor_ok (sliced t) = true) sample_weights.
Proof.
  apply Forall_forall. intros t Ht.
  apply sliced_is_well_formed.
  assert (Hall : forallb tensor_ok sample_weights = true)
    by (vm_compute; reflexivity).
  rewrite forallb_forall in Hall. apply Hall, Ht.
Defined.

(** X2: the slicing copies: at every index inside the sliced weight there is an
    entry, and it is the entry of the pretrained weight at the same index. *)
Theorem sliced_entries_are_copied :
  forall (t : tensor float) (ix : list nat),
    tensor_ok t = true ->
    inside ix (get_shape (sliced t)) ->
    lookup ix (values (sliced t)) = lookup ix (values t) /\
    lookup ix (values t) <> None.
Proof.
  intros t ix Hok Hix.
  assert (Hcopy : lookup ix (values (sliced t)) = lookup ix (values t)).
  { rewrite (sliced_first_144_of_768 t Hok) in *.
    cbn [first_144_of_768 get_shape values] in *.
    apply lookup_crop, within_inside, Hix. }
  split; [ exact Hcopy | ]. rewrite <- Hcopy.
  destruct (sliced_keeps_ok t Hok) as (Hok' & _ & _).
  unfold tensor_ok in Hok'. apply andb_prop in Hok'.
  apply (lookup_inside (get_shape (sliced t))); [ apply Hok' | exact Hix ].
Qed.

Lemma sliced_entries_are_copied_witness :
  lookup [1; 143]%nat
    (values (sliced {| get_shape := [2; 768];
                       values := sample_array 2 768 |}))
  = Some (911 # 1).
Proof.
  destruct (sliced_entries_are_copied
              {| get_shape := [2; 768]; values := sample_array 2 768 |}
              [1; 143]%nat) as [Hcopy _].
  - vm_compute. reflexivity.
  - vm_compute. repeat split; reflexivity.
  - rewrite Hcopy. vm_compute. reflexivity.
Defined.

(** X3: a weight without a dimension of size 768 passes through the loop
    unchanged, and slicing twice is slicing once. *)
Theorem sliced_only_cuts_768 :
  forall t : tensor float,
    tensor_ok t = true ->
    (Forall (fun n => n <> 768) (get_shape t) -> sliced t = t) /\
    sliced (sliced t) = sliced t.
Proof.
  assert (Hnone : forall t : tensor float,
            tensor_ok t = true ->
            Forall (fun n => n <> 768) (get_shape t) -> sliced t = t).
  { intros [sh a] Hok Hsh. rewrite (sliced_first_144_of_768 _ Hok).
    unfold first_144_of_768. cbn [get_shape values] in *.
    rewrite Forall_forall in Hsh.
    assert (Hshape : map (fun n => if n =? 768 then 144 else n) sh = sh).
    { rewrite <- (map_id sh) at 2. apply map_ext_in. intros n Hn.
      destruct (Z.eqb_spec n 768) as [H768 | _]; [ | reflexivity ].
      destruct (Hsh n Hn H768). }
    rewrite Hshape. f_equal.
    apply crop_whole. apply Forall_forall. intros k Hk.
    apply in_map_iff in Hk. destruct Hk as (n & <- & Hn).
    destruct (Z.eqb_spec n 768) as [H768 | _]; [ | reflexivity ].
    destruct (Hsh n Hn H768). }
  intros t Hok. split; [ apply Hnone, Hok | ].
  destruct (sliced_keeps_ok t Hok) as (Hok' & _ & Hsh').
  apply Hnone; assumption.
Qed.

Lemma sliced_only_cuts_768_witness :
  sliced {| get_shape := [3]; values := sample_vector 3 |}
  = {| get_shape := [3]; values := sample_vector 3 |}.
Proof.
  destruct (sliced_only_cuts_768
              {| get_shape := [3]; values := sample_vector 3 |})
    as [Hsame _].
  - vm_compute. reflexivity.
  - apply Hsame. repeat constructor; discriminate.
Defined.

Lemma slice_body_vars (lm : keras_model) (l0 : layer) (ls : list layer)
      (k : nat) (t : tensor float) (v : Loop.vars) :
  layers lm = l0 :: ls ->
  nth_error (weights l0) k = Some t ->
  exists v',
    slice_body lm v (Z.of_nat k) = Return v' /\
    Loop.weight_list v' = (Loop.weight_list v ++ [sliced t])%list /\
    Loop.i v' = Some (Z.of_nat k) /\
    Loop.large_weight v' = Some t /\
    Loop.slice_indices v' = Some (map slice_for (get_shape t)) /\
    Loop.sliced_large_weight v' = Some (sliced t).
Proof.
  intros Hl Ht. unfold slice_body. rewrite Hl. simpl.
  rewrite Nat2Z.id. unfold item. rewrite Ht. simpl.
  eexists. split; [ reflexivity | ]. simpl.
  rewrite fold_slice_step. repeat split; reflexivity.
Qed.

Lemma for_each_slice_vars (lm : keras_model) (l0 : layer) (ls : list layer) :
  layers lm = l0 :: ls ->
  forall (ws : list (tensor float)) (k : nat) (v : Loop.vars),
    skipn k (weights l0) = ws ->
    exists v',
      for_each (map Z.of_nat (seq k (List.length ws))) (slice_body lm) v
      = Return v' /\
      Loop.weight_list v' = (Loop.weight_list v ++ map sliced ws)%list /\
      (ws = [] -> v' = v) /\
      (forall ws' t,
         ws = (ws' ++ [t])%list ->
         Loop.i v' = Some (Z.of_nat (k + List.length ws')) /\
         Loop.large_weight v' = Some t /\
         Loop.slice_indices v' = Some (map slice_for (get_shape t)) /\
         Loop.sliced_large_weight v' = Some (sliced t)).
Proof.
  intros Hl ws.
  induction ws as [ | t0 ws IH]; intros k v Hk; simpl.
  - exists v. rewrite app_nil_r.
    split; [ reflexivity | ]. split; [ reflexivity | ].
    split; [ reflexivity | ].
    intros ws' t H. destruct ws'; discriminate H.
  - assert (Ht : nth_error (weights l0) k = Some t0).
    { rewrite <- (Nat.add_0_r k), <- nth_error_skipn, Hk. reflexivity. }
    assert (Hk' : skipn (S k) (weights l0) = ws).
    { replace (S k) with (1 + k)%nat by reflexivity.
      rewrite <- skipn_skipn, Hk. reflexivity. }
    destruct (slice_body_vars lm l0 ls k t0 v Hl Ht)
      as (v1 & Hv1 & Hw1 & Hi1 & Hlw1 & Hsi1 & Hsl1).
    rewrite Hv1. simpl.
    destruct (IH (S k) v1 Hk') as (v' & Hv' & Hw & Hnil & Hlast).
    exists v'. split; [ exact Hv' | ]. split; [ | split ].
    + rewrite Hw, Hw1, <- app_assoc. reflexivity.
    + discriminate.
    + intros ws' t Hws. destruct ws' as [ | t1 ws'].
      * injection Hws as Ht0 Hws0. rewrite <- Ht0.
        rewrite (Hnil Hws0), Nat.add_0_r.
        repeat split; assumption.
      * injection Hws as _ Hws0.
        destruct (Hlast ws' t Hws0) as (Hi & Hlw & Hsi & Hsl).
        cbn [List.length]. rewrite Nat.add_succ_r.
        repeat split; assumption.
Qed.

(** X4: the weight loop on any pretrained model: a model without layers ends
    it in an IndexError; otherwise it returns, with one sliced weight per
    first-layer weight, in order.  When that layer has no weights the list
    is empty and no loop variable is bound; otherwise the loop variables
    are left at the last weight: its index, the weight, its slices and its
    sliced copy. *)
Theorem slice_weights_outcome :
  forall lm : keras_model,
    match layers lm with
    | [] => slice_weights lm = Raise IndexError
    | l0 :: _ =>
        exists v,
          slice_weights lm = Return v /\
          Loop.weight_list v = map sliced (weights l0) /\
          List.length (Loop.weight_list v) = List.length (weights l0) /\
          (weights l0 = [] -> v = Loop.init) /\
          (forall ws t,
             weights l0 = (ws ++ [t])%list ->
             Loop.i v = Some (len ws) /\
             Loop.large_weight v = Some t /\
             Loop.slice_indices v = Some (map slice_for (get_shape t)) /\
             Loop.sliced_large_weight v = Some (sliced t))
    end.
Proof.
  intros lm. destruct (layers lm) as [ | l0 ls] eqn:Hl.
  - apply slice_weights_no_layer, Hl.
  - destruct (for_each_slice_vars lm l0 ls Hl (weights l0) 0%nat Loop.init
                eq_refl) as (v & Hv & Hw & Hnil & Hlast).
    exists v. split; [ | split; [ | split; [ | split ] ] ].
    + unfold slice_weights. rewrite Hl. simpl.
      unfold range, len. rewrite Nat2Z.id. exact Hv.
    + exact Hw.
    + rewrite Hw. apply length_map.
    + exact Hnil.
    + exact Hlast.
Qed.

Lemma slice_weights_outcome_witness :
  exists v,
    slice_weights {| model_id := 13;
                     layers := [ {| weights := sample_weights |} ] |}
    = Return v /\
    Loop.i v = Some 3 /\
    Loop.slice_indices v = Some [slice None None].
Proof.
  destruct (slice_weights_outcome
              {| model_id := 13;
                 layers := [ {| weights := sample_weights |} ] |})
    as (v & Hv & _ & _ & _ & Hlast).
  exists v. split; [ exact Hv | ].
  destruct (Hlast (firstn 3 sample_weights)
              {| get_shape := [3]; values := sample_vector 3 |} eq_refl)
    as (Hi & _ & Hsi & _).
  split; [ exact Hi | exact Hsi ].
Defined.

(** X6: the data pipeline (lines 66-84) behind every use of a dataset: fit is
    given the training split, converted with the pretrained tokenizer at
    max_length for the task, shuffled with buffer_size, batched by
    batch_size and repeated without end, and as validation data the
    validation split, converted and batched by twice batch_size; the two
    evaluations use the same two datasets. *)
Theorem datasets_come_from_the_pipeline :
  forall (w : world) (FLAGS : flags) (argv : option (list string)),
    (forall m d n steps vd vsteps,
       In (model_fit m d n steps vd vsteps)
          (calls (trace w [] (train FLAGS argv))) ->
       fed_by FLAGS (trace w [] (train FLAGS argv)) d vd) /\
    (forall m d verbose steps,
       In (model_evaluate m d verbose steps)
          (calls (trace w [] (train FLAGS argv))) ->
       match steps with
       | Some _ =>
           exists vd, fed_by FLAGS (trace w [] (train FLAGS argv)) d vd
       | None =>
           exists td, fed_by FLAGS (trace w [] (train FLAGS argv)) td d
       end).
Proof.
  intros w FLAGS argv.
  pose (Q := fun (t : list event) (r : outcome unit) =>
    (forall m d n steps vd vsteps,
       In (model_fit m d n steps vd vsteps) (calls t) ->
       fed_by FLAGS t d vd) /\
    (forall m d verbose steps,
       In (model_evaluate m d verbose steps) (calls t) ->
       match steps with
       | Some _ => exists vd, fed_by FLAGS t d vd
       | None => exists td, fed_by FLAGS t td d
       end)).
  apply (always_run w (train FLAGS argv) Q).
  run_train_eq.
  all: subst Q; cbv beta.
  all: split;
    [ intros m d n steps vd vsteps Hin;
      apply (collect_call fit_args _ (model_fit m d n steps vd vsteps) _
               eq_refl) in Hin
    | intros m d verbose steps Hin;
      apply (collect_call evaluate_args _
               (model_evaluate m d verbose steps) _ eq_refl) in Hin ].
  all: cbn [collect of_call ev_call fit_args evaluate_args] in Hin;
    drop_prints; cbn [In] in Hin; try contradiction.
  all: split_cases Hin.
  all: first [ injection Hin as <- <- <- <- <- <-
             | injection Hin as <- <- <- <- ].
  all: cbv iota;
    lazymatch goal with
    | |- fed_by _ _ _ _ => idtac
    | |- _ => eexists
    end.
  all: unfold fed_by; do 9 eexists.
  all: cbn [collect load_answer tokenizer_answer dataset_answer];
    drop_prints; cbn [In].
  all: split; [ left; reflexivity | ].
  all: split; [ left; reflexivity | ].
  all: split; [ eassumption | ]. all: split; [ eassumption | ].
  all: repeat (split; [ find_in | ]).
  all: find_in.
Qed.

Lemma datasets_come_from_the_pipeline_witness :
  fed_by default_flags
    (trace (sample_world []) [] (train default_flags None))
    (Obj Dataset 10) (Obj Dataset 11).
Proof.
  destruct (datasets_come_from_the_pipeline
              (sample_world []) default_flags None) as [Hfit _].
  apply (Hfit sample_model (Obj Dataset 10) 3 2104 (Obj Dataset 11) 13).
  vm_compute. find_in.
Defined.

(** X7: the step counts of fit (lines 145-149): steps_per_epoch is the size the
    loaded info reports for the train split, floor-divided by batch_size,
    and validation_steps the size of the validation split floor-divided by
    twice batch_size; fit is only called with a batch size that is not
    zero.  With batch_size zero no run reaches fit, an evaluation or the
    saving of the model. *)
Theorem fit_steps_are_floor_divisions :
  forall (w : world) (FLAGS : flags) (argv : option (list string)),
    (forall m d n steps vd vsteps,
       In (model_fit m d n steps vd vsteps)
          (calls (trace w [] (train FLAGS argv))) ->
       steps_from_info FLAGS (trace w [] (train FLAGS argv)) steps vsteps /\
       batch_size FLAGS <> 0) /\
    (batch_size FLAGS = 0 ->
     count is_fit (trace w [] (train FLAGS argv)) = 0%nat /\
     count is_evaluate (trace w [] (train FLAGS argv)) = 0%nat /\
     count is_save (trace w [] (train FLAGS argv)) = 0%nat).
Proof.
  intros w FLAGS argv.
  pose (Q := fun (t : list event) (r : outcome unit) =>
    (forall m d n steps vd vsteps,
       In (model_fit m d n steps vd vsteps) (calls t) ->
       steps_from_info FLAGS t steps vsteps /\ batch_size FLAGS <> 0) /\
    (batch_size FLAGS = 0 ->
     count is_fit t = 0%nat /\
     count is_evaluate t = 0%nat /\
     count is_save t = 0%nat)).
  apply (always_run w (train FLAGS argv) Q).
  run_train_eq.
  all: subst Q; cbv beta.
  all: split;
    [ intros m d n steps vd vsteps Hin;
      apply (collect_call fit_args _ (model_fit m d n steps vd vsteps) _
               eq_refl) in Hin;
      cbn [collect of_call ev_call fit_args] in Hin;
      drop_prints; cbn [In] in Hin; try contradiction
    | intros Hbatch;
      try (rewrite Hbatch in Hzero; discriminate Hzero);
      unfold count;
      cbn [calls map ev_call filter is_fit is_evaluate is_save];
      repeat match goal with
        | Hp : print_run _ ?t _ |- context [filter ?f (map ev_call ?t)] =>
            rewrite (filter_prints f t (fun _ => eq_refl) (proj1 Hp))
        end;
      repeat split; reflexivity ].
  all: destruct Hin as [Hin | []]; injection Hin as <- <- <- <- <- <-.
  all: split; [ | apply Z.eqb_neq; assumption ].
  all: unfold steps_from_info; do 4 eexists.
  all: cbn [collect load_answer]; drop_prints; cbn [In].
  all: split; [ left; reflexivity | ].
  all: split; [ eassumption | ]. all: split; [ eassumption | ].
  all: split; reflexivity.
Qed.

Lemma fit_steps_are_floor_divisions_witness :
  steps_from_info default_flags
    (trace (sample_world []) [] (train default_flags None)) 2104 13 /\
  count is_fit
    (trace (sample_world []) []
       (train (with_batch_size 0 default_flags) None)) = 0%nat.
Proof.
  split.
  - destruct (fit_steps_are_floor_divisions
                (sample_world []) default_flags None) as [Hfit _].
    apply (Hfit sample_model (Obj Dataset 10) 3 2104 (Obj Dataset 11) 13).
    vm_compute. find_in.
  - destruct (fit_steps_are_floor_divisions
                (sample_world []) (with_batch_size 0 default_flags) None)
      as [_ Hzero].
    apply Hzero. reflexivity.
Defined.

(** X8: the number of labels (lines 62, 86-89, 115-124): both configurations
    are requested for distilbert-base-uncased with the number of labels of
    the task's processor, the first with the default width and the second
    with dim=144: the requests of a run are always the first none, one or
    two of these, and both once the model is compiled; the pretrained model
    is built from the answer to the first and the small model from the
    answer to the second.  The model is compiled with the single metric
    SparseCategoricalAccuracy('accuracy') and with the one loss the run
    made: mean squared error when there is exactly one label, sparse
    categorical cross-entropy from logits otherwise. *)
Theorem labels_decide_configs_and_loss :
  forall (w : world) (FLAGS : flags) (argv : option (list string)),
    (forall name num_labels dim,
       In (config_from_pretrained name num_labels dim)
          (calls (trace w [] (train FLAGS argv))) ->
       exists labels,
         In labels (collect labels_answer (trace w [] (train FLAGS argv))) /\
         name = "distilbert-base-uncased" /\
         num_labels = len labels /\
         (dim = None \/ dim = Some 144)) /\
    (forall m opt loss metrics,
       In (model_compile m opt loss metrics)
          (calls (trace w [] (train FLAGS argv))) ->
       exists labels metric,
         In labels (collect labels_answer (trace w [] (train FLAGS argv))) /\
         metrics = [metric] /\
         In ("accuracy", metric)
            (collect metric_answer (trace w [] (train FLAGS argv))) /\
         collect loss_answer (trace w [] (train FLAGS argv)) =
         [ (if len labels =? 1
            then MeanSquaredError
            else SparseCategoricalCrossentropy true, loss) ] /\
         collect (of_call config_args) (trace w [] (train FLAGS argv)) =
         config_requests labels) /\
    (forall labels,
       In labels (collect labels_answer (trace w [] (train FLAGS argv))) ->
       exists n,
         collect (of_call config_args) (trace w [] (train FLAGS argv)) =
         firstn n (config_requests labels)) /\
    (forall built config,
       In (built, config)
          (collect (of_call build_args) (trace w [] (train FLAGS argv))) ->
       exists num_labels,
         In (config_from_pretrained "distilbert-base-uncased" num_labels
               (match built with
                | Some _ => None
                | None => Some 144
                end), config)
            (collect config_answer (trace w [] (train FLAGS argv))) /\
         (built = None \/ built = Some "distilbert-base-uncased")).
Proof.
  intros w FLAGS argv.
  pose (Q := fun (t : list event) (r : outcome unit) =>
    (forall name num_labels dim,
       In (config_from_pretrained name num_labels dim) (calls t) ->
       exists labels,
         In labels (collect labels_answer t) /\
         name = "distilbert-base-uncased" /\
         num_labels = len labels /\
         (dim = None \/ dim = Some 144)) /\
    (forall m opt loss metrics,
       In (model_compile m opt loss metrics) (calls t) ->
       exists labels metric,
         In labels (collect labels_answer t) /\
         metrics = [metric] /\
         In ("accuracy", metric) (collect metric_answer t) /\
         collect loss_answer t =
         [ (if len labels =? 1
            then MeanSquaredError
            else SparseCategoricalCrossentropy true, loss) ] /\
         collect (of_call config_args) t = config_requests labels) /\
    (forall labels,
       In labels (collect labels_answer t) ->
       exists n,
         collect (of_call config_args) t =
         firstn n (config_requests labels)) /\
    (forall built config,
       In (built, config) (collect (of_call build_args) t) ->
       exists num_labels,
         In (config_from_pretrained "distilbert-base-uncased" num_labels
               (match built with
                | Some _ => None
                | None => Some 144
                end), config)
            (collect config_answer t) /\
         (built = None \/ built = Some "distilbert-base-uncased"))).
  apply (always_run w (train FLAGS argv) Q).
  run_train.
  all: subst Q; cbv beta.
  all: split; [ | split; [ | split ] ].
  all: lazymatch goal with
       | |- forall name num_labels dim, In (config_from_pretrained _ _ _) _ -> _ =>
           intros name num_labels dim Hin;
           apply (collect_call config_args _
                    (config_from_pretrained name num_labels dim) _ eq_refl)
             in Hin;
           cbn [collect of_call ev_call config_args] in Hin
       | |- forall m opt loss metrics, In (model_compile _ _ _ _) _ -> _ =>
           intros m opt loss metrics Hin;
           apply (collect_call compile_args _
                    (model_compile m opt loss metrics) _ eq_refl) in Hin;
           cbn [collect of_call ev_call compile_args] in Hin
       | |- forall labels, In labels _ -> _ =>
           intros labels Hin;
           cbn [collect labels_answer] in Hin
       | |- forall built config, In _ _ -> _ =>
           intros built config Hin;
           cbn [collect of_call ev_call build_args] in Hin
       end.
  all: drop_prints; cbn [In] in Hin; try contradiction.
  all: split_cases Hin.
  all: first [ injection Hin as <- <- <- <-
             | injection Hin as <- <- <-
             | injection Hin as <- <-
             | subst labels ].
  all: cbn [collect of_call ev_call labels_answer metric_answer loss_answer
            config_answer config_args];
    drop_prints; cbn [In].
  all: first
         [ (* a configuration request *)
           eexists; split; [ left; reflexivity | ];
           split; [ reflexivity | ]; split; [ reflexivity | ];
           first [ left; reflexivity | right; reflexivity ]
         | (* the compiled model *)
           do 2 eexists; split; [ left; reflexivity | ];
           split; [ reflexivity | ]; split; [ left; reflexivity | ];
           split; [ use_branches; reflexivity | reflexivity ]
         | (* the requests so far *)
           first [ exists 0%nat; reflexivity
                 | exists 1%nat; reflexivity
                 | exists 2%nat; reflexivity ]
         | (* the model built *)
           eexists; split;
           [ find_in
           | first [ left; reflexivity | right; reflexivity ] ] ].
Qed.

Lemma labels_decide_configs_and_loss_witness :
  collect loss_answer
    (trace (sample_world []) [] (train (with_task "sts-b" default_flags) None))
  = [ (MeanSquaredError, Obj Loss 19) ] /\
  collect (of_call config_args)
    (trace (sample_world []) [] (train (with_task "sts-b" default_flags) None))
  = [ ("distilbert-base-uncased", 1, None);
      ("distilbert-base-uncased", 1, Some 144) ].
Proof.
  destruct (labels_decide_configs_and_loss
              (sample_world []) (with_task "sts-b" default_flags) None)
    as (_ & Hcompile & _).
  destruct (Hcompile sample_model (Obj Optimizer 18) (Obj Loss 19)
              [Obj Metric 20])
    as (labels & metric & Hlabels & _ & _ & Hloss & Hconfigs).
  - vm_compute. find_in.
  - vm_compute in Hlabels. destruct Hlabels as [<- | []].
    split; [ exact Hloss | exact Hconfigs ].
Defined.

(** X9: one model is worked on: the model that predict, set_weights, compile,
    summary, evaluate, fit and save_pretrained are called with is always one
    the run built with model_new from a configuration; the pretrained model
    is only read. *)
Theorem calls_act_on_the_new_model :
  forall (w : world) (FLAGS : flags) (argv : option (list string))
         (c : call) (m : keras_model),
    In c (calls (trace w [] (train FLAGS argv))) ->
    model_of_call c = Some m ->
    exists config,
      In (model_new config, m)
         (collect model_answer (trace w [] (train FLAGS argv))).
Proof.
  intros w FLAGS argv c m Hin Hc.
  apply (collect_call model_of_call _ c m Hc) in Hin. clear Hc. revert Hin.
  pose (Q := fun (t : list event) (r : outcome unit) =>
    In m (collect (of_call model_of_call) t) ->
    exists config, In (model_new config, m) (collect model_answer t)).
  apply (always_run w (train FLAGS argv) Q).
  run_train.
  all: subst Q; cbv beta.
  all: intros Hin; cbn [collect of_call ev_call model_of_call] in Hin;
    drop_prints; cbn [In] in Hin; try contradiction.
  all: cbn [collect model_answer]; drop_prints; cbn [In].
  all: assert (Hm : m = m) by reflexivity;
    repeat (destruct Hin as [Hin | Hin]; [ | try contradiction ]);
    try contradiction.
  all: rewrite <- Hin; eexists; right; left; reflexivity.
Qed.

Lemma calls_act_on_the_new_model_witness :
  exists config,
    In (model_new config, sample_model)
       (collect model_answer
          (trace (sample_world []) [] (train default_flags None))).
Proof.
  apply (calls_act_on_the_new_model (sample_world []) default_flags None
           (save_pretrained sample_model "./sst2/") sample_model).
  - vm_compute. find_in.
  - reflexivity.
Defined.

(** X10: overwriting (lines 135, 144-154): with force_train set and evaluate
    unset, a run that completes has asked once whether the checkpoint is
    there and, whatever the answer, has then fitted once, made the output
    directory with exist_ok and saved the model into it once, printing
    nothing. *)
Theorem force_train_retrains_and_saves :
  forall (w : world) (FLAGS : flags) (argv : option (list string)),
    evaluate FLAGS = false ->
    force_train FLAGS = true ->
    result w [] (train FLAGS argv) = Ok tt ->
    count is_fit (trace w [] (train FLAGS argv)) = 1%nat /\
    count is_print (trace w [] (train FLAGS argv)) = 0%nat /\
    collect (of_call makedirs_args) (trace w [] (train FLAGS argv)) =
    [ (model_path FLAGS, true) ] /\
    exists m found,
      collect (of_call save_args) (trace w [] (train FLAGS argv)) =
      [ (m, model_path FLAGS) ] /\
      collect exists_answer (trace w [] (train FLAGS argv)) =
      [ (checkpoint FLAGS, found) ].
Proof.
  intros w FLAGS argv Hev Hforce.
  pose (Q := fun (t : list event) (r : outcome unit) =>
    r = Ok tt ->
    count is_fit t = 1%nat /\
    count is_print t = 0%nat /\
    collect (of_call makedirs_args) t = [ (model_path FLAGS, true) ] /\
    exists m found,
      collect (of_call save_args) t = [ (m, model_path FLAGS) ] /\
      collect exists_answer t = [ (checkpoint FLAGS, found) ]).
  apply (always_run w (train FLAGS argv) Q).
  run_train.
  all: subst Q; cbv beta.
  all: intros Hr; try discriminate Hr.
  all: try congruence.
  all: try match goal with
         | Hb : (?x && negb (force_train ?F)) = true |- _ =>
             rewrite Hforce in Hb; destruct x; discriminate Hb
         end.
  all: unfold count;
    cbn [calls map ev_call filter is_fit is_print List.length].
  all: split; [ reflexivity | ]. all: split; [ reflexivity | ].
  all: cbn [collect of_call ev_call makedirs_args save_args exists_answer].
  all: split; [ reflexivity | ].
  all: do 2 eexists; split; reflexivity.
Qed.

Lemma force_train_retrains_and_saves_witness :
  count is_fit
    (trace (sample_world ["./sst2/tf_model.h5"]) []
       (train (with_force_train default_flags) None)) = 1%nat /\
  collect (of_call makedirs_args)
    (trace (sample_world ["./sst2/tf_model.h5"]) []
       (train (with_force_train default_flags) None))
  = [ ("./sst2/", true) ].
Proof.
  destruct (force_train_retrains_and_saves
              (sample_world ["./sst2/tf_model.h5"])
              (with_force_train default_flags) None eq_refl eq_refl)
    as (Hfit & _ & Hdir & _).
  - vm_compute. reflexivity.
  - split; [ exact Hfit | exact Hdir ].
Defined.

(** ** The two task helpers together (lines 37-54) *)

(** X11: [_get_tfds_task] never returns sst-2 or sts-b and applying it twice is
    applying it once; a training length is defined exactly for the task
    names it changes, so the length asked for a name it has already
    translated is always [None]. *)
Theorem task_helpers_agree :
  forall task : string,
    _get_tfds_task task <> "sst-2" /\
    _get_tfds_task task <> "sts-b" /\
    _get_tfds_task (_get_tfds_task task) = _get_tfds_task task /\
    (_get_train_length task = None <-> _get_tfds_task task = task) /\
    _get_train_length (_get_tfds_task task) = None.
Proof.
  intros task. unfold _get_tfds_task, _get_train_length.
  destruct (String.eqb_spec task "sst-2") as [-> | Hsst];
    [ cbn; repeat split; try discriminate; reflexivity | ].
  destruct (String.eqb_spec task "sts-b") as [-> | Hsts];
    [ cbn; repeat split; try discriminate; reflexivity | ].
  destruct (String.eqb_spec task "sst-2"); [ contradiction | ].
  destruct (String.eqb_spec task "sts-b"); [ contradiction | ].
  repeat split; assumption || reflexivity.
Qed.

Lemma task_helpers_agree_witness :
  _get_train_length "mrpc" = None.
Proof.
  destruct (task_helpers_agree "mrpc") as (_ & _ & _ & Hiff & _).
  apply Hiff. reflexivity.
Defined.

(** ** The loop that prints the variables (lines 139-141) *)

(** X12: whatever the dictionary holds and however the prints are answered, the
    loop makes only print calls; when it completes it has printed, in the
    dictionary's order, one line for each entry whose name does not begin
    with a dash; when it ends in an exception, that is the exception of its
    last print. *)
Theorem print_vars_prints_in_order :
  forall (w : world) (past : list event) (vars : list (string * pyvalue)),
    forallb is_print (calls (trace w past (print_vars vars))) = true /\
    (result w past (print_vars vars) = Ok tt ->
     calls (trace w past (print_vars vars)) = map print (printed vars) /\
     (List.length (trace w past (print_vars vars)) <= List.length vars)%nat) /\
    (forall e,
       result w past (print_vars vars) = Exn e ->
       last_raised (trace w past (print_vars vars)) = Some e).
Proof.
  intros w past vars.
  apply (always_sound w (print_vars vars) past
           (fun t r =>
              forallb is_print (calls t) = true /\
              (r = Ok tt ->
               calls t = map print (printed vars) /\
               (List.length t <= List.length vars)%nat) /\
              (forall e, r = Exn e -> last_raised t = Some e))).
  apply always_print_vars. intros t r [Hprints Hr].
  split; [ exact Hprints | ]. split.
  - intros ->. split; [ exact Hr | ].
    rewrite <- (length_map ev_call t). fold (calls t). rewrite Hr.
    unfold printed. rewrite !length_map. apply filter_length_le.
  - intros e ->. destruct Hr as (pre & line & ->). apply last_raised_snoc.
Qed.

Lemma print_vars_prints_in_order_witness :
  calls (trace (sample_world []) []
           (print_vars [("-hidden", VNone); ("shown", VInt 1)]))
  = [ print (var_line ("shown", VInt 1)) ].
Proof.
  destruct (print_vars_prints_in_order (sample_world []) []
              [("-hidden", VNone); ("shown", VInt 1)]) as (_ & Hdone & _).
  apply Hdone. reflexivity.
Defined.
